(** * ChatComponent (src/pages/admin/chat.tsx)

    A shallow embedding of the admin chat component: the snapshot callback of
    [fetchMessages], the effect that opens the subscription, the submission
    handler [addOrUpdateMessage] and [editMessage].

    The collaborators the component talks to (the document store, the remote
    completion endpoint, the console, React's state cells and effect
    bookkeeping) are modelled by explicit state passing; what they decide on
    their own (whether a write is rejected, what the endpoint answers, which
    identifier a new document gets, how a date prints) is read from an
    environment record. *)

From Stdlib Require Import List Bool Arith ZArith NArith Lia String Ascii.
From Stdlib Require Import Sorting.Sorted.
Import ListNotations.

Set Warnings "-register-all".

(** ** JavaScript values *)

Module Js.

(** A JavaScript string is a sequence of UTF-16 code units. *)
Definition jsstring := list N.

(** ASCII literals of the source. *)
Definition lit (s : string) : jsstring :=
  List.map N_of_ascii (list_ascii_of_string s).

Fixpoint str_eqb (a b : jsstring) : bool :=
  match a, b with
  | [], [] => true
  | x :: a', y :: b' => N.eqb x y && str_eqb a' b'
  | _, _ => false
  end.

(** [!s] is true exactly for the empty string. *)
Definition truthy_string (s : jsstring) : bool :=
  match s with
  | [] => false
  | _ :: _ => true
  end.

(** WhiteSpace and LineTerminator code points, the ones [trim] strips. *)
Definition is_white_space (c : N) : bool :=
  ((9 <=? c) && (c <=? 13)                (* TAB LF VT FF CR *)
   || (c =? 32) || (c =? 160)             (* SP, NBSP *)
   || (c =? 5760)                         (* U+1680 *)
   || ((8192 <=? c) && (c <=? 8202))      (* U+2000 .. U+200A *)
   || (c =? 8232) || (c =? 8233)          (* LS, PS *)
   || (c =? 8239) || (c =? 8287)          (* U+202F, U+205F *)
   || (c =? 12288) || (c =? 65279))%N.    (* U+3000, BOM *)

Fixpoint trimStart (s : jsstring) : jsstring :=
  match s with
  | [] => []
  | c :: s' => if is_white_space c then trimStart s' else s
  end.

Definition trimEnd (s : jsstring) : jsstring := rev (trimStart (rev s)).

(** [String.prototype.trim] *)
Definition trim (s : jsstring) : jsstring := trimEnd (trimStart s).

(** [a.slice(-n)]: the last [n] elements, the whole array when it is shorter. *)
Definition slice_last {A : Type} (n : nat) (a : list A) : list A :=
  skipn (List.length a - n) a.

(** Values the parsed response can hold, and [undefined]. *)
Inductive value : Type :=
| VUndefined
| VNull
| VBool (b : bool)
| VNumber (n : Z)
| VString (s : jsstring)
| VArray (elems : list value)
| VObject (props : list (jsstring * value)).

Inductive error : Type :=
| TypeError        (* property read on undefined or null *)
| SyntaxError      (* response.json() on a body that is not JSON *)
| NetworkError     (* fetch rejected *)
| FirebaseError.   (* a store write rejected *)

Inductive completion (A : Type) : Type :=
| Normal (a : A)
| Thrown (e : error).
Arguments Normal {A} a.
Arguments Thrown {A} e.

Fixpoint lookup_prop (k : jsstring) (props : list (jsstring * value)) : value :=
  match props with
  | [] => VUndefined
  | (k', v) :: rest => if str_eqb k k' then v else lookup_prop k rest
  end.

(** [v.name] for the names the handler reads ([choices], [message],
    [content]); none of them is an own or inherited property of a primitive
    or of an array. *)
Definition get_member (v : value) (name : jsstring) : completion value :=
  match v with
  | VUndefined | VNull => Thrown TypeError
  | VObject props => Normal (lookup_prop name props)
  | _ => Normal VUndefined
  end.

(** [v[0]] *)
Definition get_index0 (v : value) : completion value :=
  match v with
  | VUndefined | VNull => Thrown TypeError
  | VArray elems => Normal (nth 0 elems VUndefined)
  | VString s =>
      Normal (match s with [] => VUndefined | c :: _ => VString [c] end)
  | VObject props => Normal (lookup_prop (lit "0") props)
  | _ => Normal VUndefined
  end.

End Js.

(** ** The document store *)

Module Firestore.
Import Js.

Definition Timestamp := Z.
Definition DocId := jsstring.

(** A time field of a write: the [serverTimestamp()] sentinel, resolved by the
    store when the write commits, or a time fixed by the client. *)
Inductive FieldTime : Type :=
| serverTimestamp
| clientTime (t : Timestamp).

(** A document of the [messages] collection as the store holds it. *)
Record Document : Type := mkDocument {
  doc_id : DocId;
  doc_role : jsstring;
  doc_content : value;
  doc_userId : jsstring;
  doc_createdAt : Timestamp;
  doc_updatedAt : Timestamp
}.

(** The two writes the component issues, both on collection [messages]:
    [updateDoc(doc(db, 'messages', id), {content, updatedAt})] and
    [addDoc(collection(db, 'messages'), {role, content, userId, createdAt, updatedAt})]. *)
Inductive Write : Type :=
| UpdateDoc (id : DocId) (content : jsstring) (updatedAt : FieldTime)
| AddDoc (role : jsstring) (content : value) (userId : jsstring)
         (createdAt updatedAt : FieldTime).

(** The collection in commit order, the server clock, and the number of
    writes attempted so far. *)
Record World : Type := mkWorld {
  docs : list Document;
  clock : Timestamp;
  writes : nat
}.

Definition resolve (now : Timestamp) (f : FieldTime) : Timestamp :=
  match f with
  | serverTimestamp => now
  | clientTime t => t
  end.

Definition has_doc (id : DocId) (ds : list Document) : bool :=
  existsb (fun d => str_eqb (doc_id d) id) ds.

Definition apply_update (id : DocId) (content : jsstring) (t : Timestamp)
    (d : Document) : Document :=
  if str_eqb (doc_id d) id
  then mkDocument (doc_id d) (doc_role d) (VString content) (doc_userId d)
                  (doc_createdAt d) t
  else d.

(** What a write that the store accepts does to the collection. An update of
    a document that does not exist is refused ([None]). Each commit is
    stamped with the server clock, which then moves on. *)
Definition commit (new_id : DocId) (w : Write) (W : World) : option World :=
  match w with
  | UpdateDoc id content upd =>
      if has_doc id (docs W)
      then Some (mkWorld (List.map (apply_update id content (resolve (clock W) upd)) (docs W))
                         (clock W + 1)%Z (S (writes W)))
      else None
  | AddDoc role content uid cre upd =>
      Some (mkWorld (docs W ++ [mkDocument new_id role content uid
                                  (resolve (clock W) cre) (resolve (clock W) upd)])
                    (clock W + 1)%Z (S (writes W)))
  end.

(** Order of document ids: lexicographic on code units, a prefix first. *)
Fixpoint id_leb (a b : DocId) : bool :=
  match a, b with
  | [], _ => true
  | _ :: _, [] => false
  | x :: a', y :: b' =>
      if (x <? y)%N then true
      else if (y <? x)%N then false
      else id_leb a' b'
  end.

(** [d] is served before [e] by an ascending [orderBy('createdAt')]: the
    earlier creation time first, and at equal times the smaller document
    id (the store breaks the ties of an order by document id). *)
Definition served_before (d e : Document) : bool :=
  (doc_createdAt d <? doc_createdAt e)%Z
  || ((doc_createdAt d =? doc_createdAt e)%Z && id_leb (doc_id d) (doc_id e)).

(** The query of [fetchMessages]:
    [where('userId', '==', uid)], [orderBy('createdAt', 'asc')]. *)
Fixpoint insert_by_createdAt (d : Document) (sorted : list Document) : list Document :=
  match sorted with
  | [] => [d]
  | e :: rest =>
      if served_before d e
      then d :: sorted
      else e :: insert_by_createdAt d rest
  end.

Definition orderBy_createdAt_asc (ds : list Document) : list Document :=
  fold_right insert_by_createdAt [] ds.

Definition query_messages (uid : jsstring) (W : World) : list Document :=
  orderBy_createdAt_asc (filter (fun d => str_eqb (doc_userId d) uid) (docs W)).

End Firestore.

(** ** The component *)

Module Chat.
Import Js Firestore.

(** [interface ChatMessage]. [id] and [updatedAt] are optional properties
    ([None] is an absent property); [createdAt] and a present [updatedAt]
    are a display string or [null]. *)
Record ChatMessage : Type := mkChatMessage {
  id : option jsstring;
  role : jsstring;
  content : jsstring;
  createdAt : option jsstring;
  updatedAt : option (option jsstring)
}.

(** The current user of the auth context; absent when signed out. *)
Record User : Type := mkUser { uid : jsstring }.

(** The four state cells of the component. *)
Record ComponentState : Type := mkState {
  prompt : jsstring;
  messages : list ChatMessage;
  loading : bool;
  editId : option DocId
}.

Definition initial_state : ComponentState := mkState [] [] false None.

(** *** The remote endpoint *)

Record Request : Type := mkRequest {
  url : jsstring;
  method : jsstring;
  headers : list (jsstring * jsstring);
  body : value          (* the JSON document that JSON.stringify encodes *)
}.

(** [fetch] rejects, or resolves with a response of some status whose body
    parses as JSON ([Some]) or does not ([None]). *)
Inductive FetchOutcome : Type :=
| FetchRejected
| FetchResolved (status : Z) (json : option value).

(** What the collaborators decide on their own. *)
Record Env : Type := mkEnv {
  toLocaleString : Timestamp -> jsstring;   (* date.toLocaleString() *)
  auto_id : nat -> DocId;                   (* identifier given by the n-th write *)
  rejects : nat -> Write -> bool;           (* is the n-th write rejected *)
  respond : Request -> FetchOutcome         (* what fetch does with a request *)
}.

(** *** Observable events, in the order they happen *)

Inductive Event : Type :=
| SetPrompt (s : jsstring)
| SetLoading (b : bool)
| SetEditId (e : option DocId)
| StoreWrite (w : Write)
| Fetch (rq : Request)
| ConsoleError (msg : jsstring) (e : error).

Record Sys : Type := mkSys {
  comp : ComponentState;   (* the live state cells *)
  world : World;
  log : list Event
}.

(** *** Asynchronous code: state passing with exceptions *)

Definition Async (A : Type) : Type := Env -> Sys -> completion A * Sys.

Definition ret {A : Type} (a : A) : Async A := fun _ s => (Normal a, s).

Definition bind {A B : Type} (m : Async A) (k : A -> Async B) : Async B :=
  fun env s =>
    match m env s with
    | (Normal a, s1) => k a env s1
    | (Thrown e, s1) => (Thrown e, s1)
    end.

Definition lift {A : Type} (c : completion A) : Async A := fun _ s => (c, s).

Declare Scope async_scope.
Delimit Scope async_scope with async.
Notation "x <- m ;; k" := (bind m (fun x => k))
  (at level 61, m at next level, right associativity) : async_scope.
Notation "m ;; k" := (bind m (fun _ => k))
  (at level 61, right associativity) : async_scope.
Open Scope async_scope.

(** [try { body } catch (e) { handler e } finally { fin }] *)
Definition try_catch_finally {A : Type}
    (body : Async A) (handler : error -> Async A) (fin : Async unit) : Async A :=
  fun env s =>
    let (r, s1) := body env s in
    let (r', s2) :=
      match r with
      | Normal a => (Normal a, s1)
      | Thrown e => handler e env s1
      end in
    let (f, s3) := fin env s2 in
    match f with
    | Normal _ => (r', s3)
    | Thrown e => (Thrown e, s3)
    end.

Definition emit (ev : Event) (s : Sys) : Sys :=
  mkSys (comp s) (world s) (log s ++ [ev]).

Definition setPrompt (p : jsstring) : Async unit :=
  fun _ s =>
    let c := comp s in
    (Normal tt,
     emit (SetPrompt p)
       (mkSys (mkState p (messages c) (loading c) (editId c)) (world s) (log s))).

Definition setLoading (b : bool) : Async unit :=
  fun _ s =>
    let c := comp s in
    (Normal tt,
     emit (SetLoading b)
       (mkSys (mkState (prompt c) (messages c) b (editId c)) (world s) (log s))).

Definition setEditId (e : option DocId) : Async unit :=
  fun _ s =>
    let c := comp s in
    (Normal tt,
     emit (SetEditId e)
       (mkSys (mkState (prompt c) (messages c) (loading c) e) (world s) (log s))).

(** [await updateDoc(...)] and [await addDoc(...)]: the write is attempted;
    the environment may reject it, and so may the store. *)
Definition storeWrite (w : Write) : Async unit :=
  fun env s =>
    let W := world s in
    let s1 := emit (StoreWrite w) s in
    let refused :=
      (Thrown FirebaseError,
       mkSys (comp s1) (mkWorld (docs W) (clock W) (S (writes W))) (log s1)) in
    if rejects env (writes W) w then refused
    else match commit (auto_id env (writes W)) w W with
         | Some W' => (Normal tt, mkSys (comp s1) W' (log s1))
         | None => refused
         end.

(** [await fetch(url, init)] followed by [await response.json()]. *)
Definition fetch (rq : Request) : Async (option value) :=
  fun env s =>
    match respond env rq with
    | FetchRejected => (Thrown NetworkError, emit (Fetch rq) s)
    | FetchResolved _ json => (Normal json, emit (Fetch rq) s)
    end.

Definition response_json (json : option value) : Async value :=
  match json with
  | Some data => ret data
  | None => lift (Thrown SyntaxError)
  end.

Definition console_error (msg : jsstring) (e : error) : Async unit :=
  fun _ s => (Normal tt, emit (ConsoleError msg e) s).

(** *** The submission handler *)

(** A [ChatMessage] as [JSON.stringify] writes it: absent properties are
    left out, [null] stays. *)
Definition json_of_message (m : ChatMessage) : value :=
  VObject
    ((match id m with
      | Some i => [(lit "id", VString i)]
      | None => []
      end)
     ++ [(lit "role", VString (role m));
         (lit "content", VString (content m));
         (lit "createdAt",
          match createdAt m with Some t => VString t | None => VNull end)]
     ++ (match updatedAt m with
         | Some (Some t) => [(lit "updatedAt", VString t)]
         | Some None => [(lit "updatedAt", VNull)]
         | None => []
         end)).

(** The [fetch('/api/chat', ...)] call of the handler. *)
Definition chat_request (p : jsstring) (msgs : list ChatMessage) : Request :=
  mkRequest (lit "/api/chat") (lit "POST")
    [(lit "Content-Type", lit "application/json")]
    (VObject [(lit "prompt", VString p);
              (lit "messages", VArray (List.map json_of_message (slice_last 5 msgs)))]).

Definition and_then {A B : Type} (c : completion A) (k : A -> completion B)
    : completion B :=
  match c with
  | Normal a => k a
  | Thrown e => Thrown e
  end.

(** [data.choices[0].message.content] *)
Definition choice_content (data : value) : completion value :=
  and_then (get_member data (lit "choices")) (fun choices =>
  and_then (get_index0 choices) (fun first =>
  and_then (get_member first (lit "message")) (fun message =>
  get_member message (lit "content")))).

(** [if (editId)] *)
Definition editing (r : ComponentState) : option DocId :=
  match editId r with
  | Some e => if truthy_string e then Some e else None
  | None => None
  end.

(** The body of the [try] block. [r] is the state of the render whose
    closure the handler is: [prompt], [messages] and [editId] are read from
    it, whatever the live cells hold by then. *)
Definition submit (r : ComponentState) (user : User) : Async unit :=
  (match editing r with
   | Some e =>
       storeWrite (UpdateDoc e (prompt r) serverTimestamp) ;;
       setEditId None
   | None =>
       storeWrite (AddDoc (lit "user") (VString (prompt r)) (uid user)
                          serverTimestamp serverTimestamp)
   end) ;;
  response <- fetch (chat_request (prompt r) (messages r)) ;;
  data <- response_json response ;;
  c <- lift (choice_content data) ;;
  storeWrite (AddDoc (lit "assistant") c (uid user)
                     serverTimestamp serverTimestamp) ;;
  setPrompt [].

Definition addOrUpdateMessage (r : ComponentState) (user : option User) : Async unit :=
  match user with
  | None => ret tt
  | Some u =>
      if negb (truthy_string (trim (prompt r))) then ret tt
      else
        setLoading true ;;
        try_catch_finally
          (submit r u)
          (fun e => console_error (lit "Error submitting message:") e)
          (setLoading false)
  end.

(** [message.id || null] *)
Definition id_or_null (message : ChatMessage) : option DocId :=
  match id message with
  | Some i => if truthy_string i then Some i else None
  | None => None
  end.

Definition editMessage (message : ChatMessage) : Async unit :=
  setPrompt (content message) ;;
  setEditId (id_or_null message).

(** *** The subscription *)

(** A document of a snapshot: [doc.id] and the fields of [doc.data()] the
    callback reads (a time field is [null] while the server has not
    resolved it), and the owner the query filters on. *)
Record QueryDocumentSnapshot : Type := mkSnap {
  snap_id : DocId;
  data_role : jsstring;
  data_content : jsstring;
  data_userId : jsstring;
  data_createdAt : option Timestamp;
  data_updatedAt : option Timestamp
}.

Definition message_of_doc (env : Env) (doc : QueryDocumentSnapshot) : ChatMessage :=
  mkChatMessage (Some (snap_id doc)) (data_role doc) (data_content doc)
    (option_map (toLocaleString env) (data_createdAt doc))
    (Some (option_map (toLocaleString env) (data_updatedAt doc))).

(** [snapshot.docs.map(...)], the argument of [setMessages]. *)
Definition newMessages (env : Env) (snapshot_docs : list QueryDocumentSnapshot)
    : list ChatMessage :=
  List.map (message_of_doc env) snapshot_docs.

Definition setMessages (ms : list ChatMessage) (c : ComponentState) : ComponentState :=
  mkState (prompt c) ms (loading c) (editId c).

(** *** The effect and the life of the view *)

(** A registration made by [onSnapshot]: its handle and the user its query
    filters on. *)
Record Listener : Type := mkListener {
  handle : nat;
  listens_for : jsstring
}.

(** The function [() => unsubscribe()] for the registration with handle [h]. *)
Inductive Cleanup : Type :=
| Unsubscribe (h : nat).

Record Runtime : Type := mkRuntime {
  mounted : bool;
  current_user : option User;
  view : ComponentState;
  listeners : list Listener;     (* registrations the store still serves *)
  next_handle : nat;
  kept_cleanup : option Cleanup; (* the function React keeps for the effect *)
  callbacks_run : nat            (* snapshot callbacks run so far *)
}.

Definition unmounted : Runtime :=
  mkRuntime false None initial_state [] 0 None 0.

(** [fetchMessages]. The result is what the promise of the async function
    resolves to: [undefined] without a user, the unsubscribing function
    otherwise. *)
Definition fetchMessages (user : option User) (rt : Runtime)
    : option Cleanup * Runtime :=
  match user with
  | None => (None, rt)
  | Some u =>
      let h := next_handle rt in
      (Some (Unsubscribe h),
       mkRuntime (mounted rt) (current_user rt) (view rt)
                 (listeners rt ++ [mkListener h (uid u)]) (S h)
                 (kept_cleanup rt) (callbacks_run rt))
  end.

(** The effect [() => { fetchMessages(); }]: the promise is dropped and the
    block returns nothing, so the value handed to React is [undefined]. *)
Definition effect (user : option User) (rt : Runtime) : option Cleanup * Runtime :=
  let (_, rt') := fetchMessages user rt in
  (None, rt').

Definition run_cleanup (c : option Cleanup) (ls : list Listener) : list Listener :=
  match c with
  | Some (Unsubscribe h) => filter (fun l => negb (Nat.eqb (handle l) h)) ls
  | None => ls
  end.

Inductive LifeEvent : Type :=
| Mount (user : option User)
| UserChanged (user : option User)
| Unmount
| Snapshot (h : nat) (snapshot_docs : list QueryDocumentSnapshot).

Definition registered (h : nat) (ls : list Listener) : bool :=
  existsb (fun l => Nat.eqb (handle l) h) ls.

(** React's part, for any effect [eff] with dependency list [[user]]: the
    effect runs after mount and after a change of [user]; the function it
    returned, if any, runs before the next run and at unmount. The store
    serves a snapshot only to a registration it still has; a state update of
    an unmounted view is dropped. *)
Definition step (env : Env)
    (eff : option User -> Runtime -> option Cleanup * Runtime)
    (rt : Runtime) (ev : LifeEvent) : Runtime :=
  match ev with
  | Mount user =>
      let (c, rt') :=
        eff user (mkRuntime true user initial_state (listeners rt)
                            (next_handle rt) None (callbacks_run rt)) in
      mkRuntime (mounted rt') (current_user rt') (view rt') (listeners rt')
                (next_handle rt') c (callbacks_run rt')
  | UserChanged user =>
      if mounted rt then
        let (c, rt') :=
          eff user (mkRuntime true user (view rt)
                              (run_cleanup (kept_cleanup rt) (listeners rt))
                              (next_handle rt) None (callbacks_run rt)) in
        mkRuntime (mounted rt') (current_user rt') (view rt') (listeners rt')
                  (next_handle rt') c (callbacks_run rt')
      else rt
  | Unmount =>
      mkRuntime false (current_user rt) (view rt)
                (run_cleanup (kept_cleanup rt) (listeners rt))
                (next_handle rt) None (callbacks_run rt)
  | Snapshot h snapshot_docs =>
      if registered h (listeners rt) then
        mkRuntime (mounted rt) (current_user rt)
                  (if mounted rt
                   then setMessages (newMessages env snapshot_docs) (view rt)
                   else view rt)
                  (listeners rt) (next_handle rt) (kept_cleanup rt)
                  (S (callbacks_run rt))
      else rt
  end.

Definition run (env : Env)
    (eff : option User -> Runtime -> option Cleanup * Runtime)
    (evs : list LifeEvent) : Runtime :=
  fold_left (step env eff) evs unmounted.

(** *** What the component renders *)

(** One entry of the history pane: the [key] React is given, the speaker
    shown in bold, the text, and the message the Edit button passes to
    [editMessage] when the entry has one. *)
Record HistoryRow : Type := mkRow {
  key : nat;
  speaker : jsstring;
  text : jsstring;
  edit_button : option ChatMessage
}.

Record View : Type := mkView {
  heading : jsstring;
  rows : list HistoryRow;
  textarea_value : jsstring;
  textarea_placeholder : jsstring;
  button_label : jsstring;
  button_disabled : bool
}.

(** [message.role === 'user'] *)
Definition is_user (message : ChatMessage) : bool :=
  str_eqb (role message) (lit "user").

(** The callback of [messages.map((message, index) => ...)]. *)
Definition render_row (message : ChatMessage) (index : nat) : HistoryRow :=
  mkRow index
        (if is_user message then lit "You" else lit "GPT")
        (content message)
        (if is_user message then Some message else None).

Fixpoint map_indexed {A B : Type} (f : A -> nat -> B) (index : nat) (a : list A)
    : list B :=
  match a with
  | [] => []
  | x :: rest => f x index :: map_indexed f (S index) rest
  end.

(** [loading ? 'Loading...' : editId ? 'Update Message' : 'Submit Message'] *)
Definition label_of (c : ComponentState) : jsstring :=
  if loading c then lit "Loading..."
  else match editing c with
       | Some _ => lit "Update Message"
       | None => lit "Submit Message"
       end.

Definition render (c : ComponentState) : View :=
  mkView (lit "Chat with GPT")
         (map_indexed render_row 0 (messages c))
         (prompt c)
         (lit "Enter your prompt here...")
         (label_of c)
         (loading c).

(** [onChange={(e) => setPrompt(e.target.value)}] *)
Definition onChange (target_value : jsstring) : Async unit :=
  setPrompt target_value.

End Chat.

(** ** Sample data *)

Module Samples.
Import Js Firestore Chat.

Definition u1 : User := mkUser (lit "u1").
Definition u2 : User := mkUser (lit "u2").

(** An environment where every write is accepted and the endpoint answers
    [{choices: [{message: {content: "Hi there"}}]}]. *)
Definition reply (text : string) : value :=
  VObject [(lit "choices",
            VArray [VObject [(lit "message",
                              VObject [(lit "content", VString (lit text))])]])].

Definition env_ok : Env :=
  mkEnv (fun t => lit "date")
        (fun n => lit "doc" ++ [N.of_nat (48 + n)])
        (fun _ _ => false)
        (fun _ => FetchResolved 200%Z (Some (reply "Hi there"))).

(** The endpoint cannot be reached. *)
Definition env_offline : Env :=
  mkEnv (toLocaleString env_ok) (auto_id env_ok) (fun _ _ => false)
        (fun _ => FetchRejected).

(** The store rejects every write. *)
Definition env_store_down : Env :=
  mkEnv (toLocaleString env_ok) (auto_id env_ok) (fun _ _ => true)
        (respond env_ok).

Definition empty_world : World := mkWorld [] 1000%Z 0.

Definition sys_of (c : ComponentState) (W : World) : Sys := mkSys c W [].

Definition doc_m1 : Document :=
  mkDocument (lit "m1") (lit "user") (VString (lit "old")) (lit "u1") 10%Z 10%Z.

Definition private_doc : QueryDocumentSnapshot :=
  mkSnap (lit "a") (lit "user") (lit "for u1 only") (lit "u1")
         (Some 1%Z) (Some 1%Z).

End Samples.

(** ** Properties *)

Module ChatSpec.
Import Js Firestore Chat Samples.

(** *** Vocabulary of the statements *)

(** The store writes and the remote calls among a list of events. *)
Fixpoint store_writes (evs : list Event) : list Write :=
  match evs with
  | [] => []
  | StoreWrite w :: rest => w :: store_writes rest
  | _ :: rest => store_writes rest
  end.

Fixpoint remote_calls (evs : list Event) : list Request :=
  match evs with
  | [] => []
  | Fetch rq :: rest => rq :: remote_calls rest
  | _ :: rest => remote_calls rest
  end.

Definition touches_loading (ev : Event) : bool :=
  match ev with
  | SetLoading _ => true
  | _ => false
  end.

(** The user-message write the claims speak of. *)
Definition user_write (r : ComponentState) (user : User) : Write :=
  match editing r with
  | Some e => UpdateDoc e (prompt r) serverTimestamp
  | None => AddDoc (lit "user") (VString (prompt r)) (uid user)
                   serverTimestamp serverTimestamp
  end.


(** The precondition of the handler: [prompt.trim()] is not empty. *)
Definition draft_ok (r : ComponentState) : bool :=
  truthy_string (trim (prompt r)).

(** The [try] block of an invocation started in [s] throws [e]. *)
Definition try_block_throws (r : ComponentState) (u : User) (env : Env)
    (s : Sys) (e : error) : Prop :=
  fst (submit r u env (snd (setLoading true env s))) = Thrown e.

(** The store accepts write [w] in world [W]. *)
Definition accepted (env : Env) (W : World) (w : Write) : bool :=
  negb (rejects env (writes W) w)
  && match commit (auto_id env (writes W)) w W with
     | Some _ => true
     | None => false
     end.

(** C3 as the claim states it: whenever the [try] block fails, the error is
    logged and both the draft and the edit marker are what they were when
    the invocation started. *)
Definition draft_and_marker_kept_on_failure : Prop :=
  forall (r : ComponentState) (u : User) (env : Env) (s : Sys) (e : error),
    draft_ok r = true ->
    try_block_throws r u env s e ->
    let s' := snd (addOrUpdateMessage r (Some u) env s) in
    In (ConsoleError (lit "Error submitting message:") e) (log s')
    /\ prompt (comp s') = prompt (comp s)
    /\ editId (comp s') = editId (comp s).

(** The [try] block of an invocation started in [s] runs to its end. *)
Definition try_block_completes (r : ComponentState) (u : User) (env : Env)
    (s : Sys) : Prop :=
  fst (submit r u env (snd (setLoading true env s))) = Normal tt.





Definition adjacent {A : Type} (a b : A) (l : list A) : Prop :=
  exists l1 l2, l = l1 ++ a :: b :: l2 \/ l = l1 ++ b :: a :: l2.

(** [M] after an edit with draft [p] committed at time [t]: content and
    [updatedAt] are new, the rest is [M]'s. *)
Definition edited (M : Document) (p : jsstring) (t : Timestamp) : Document :=
  mkDocument (doc_id M) (doc_role M) (VString p) (doc_userId M)
             (doc_createdAt M) t.

(** C7 as the claim states it: every edit-mode submission that targets an
    existing message [M] of the user leaves [M] with new content and
    [updatedAt] only, and ends the user's history with exactly one new
    assistant record that is not next to [M]. *)
Definition edit_appends_reply_away_from_target : Prop :=
  forall (r : ComponentState) (u : User) (env : Env) (s : Sys) (M : Document),
    draft_ok r = true ->
    editing r = Some (doc_id M) ->
    In M (docs (world s)) ->
    doc_userId M = uid u ->
    let s' := snd (addOrUpdateMessage r (Some u) env s) in
    let M' := edited M (prompt r) (clock (world s)) in
    exists (A : Document) (before : list Document),
      query_messages (uid u) (world s') = before ++ [A]
      /\ List.length before = List.length (query_messages (uid u) (world s))
      /\ In M' before
      /\ doc_role A = lit "assistant"
      /\ ~ adjacent M' A (query_messages (uid u) (world s')).

(** The remote call with request [rq] does not succeed: [fetch] rejects,
    the body is not JSON, or [choices[0].message.content] cannot be read. *)
Definition remote_fails (env : Env) (rq : Request) : Prop :=
  forall status data c,
    respond env rq = FetchResolved status (Some data) ->
    choice_content data <> Normal c.

(** What identifies a stored record and never changes: id, role, owner and
    creation time. *)
Definition record_key (d : Document) : DocId * jsstring * jsstring * Timestamp :=
  (doc_id d, doc_role d, doc_userId d, doc_createdAt d).

(** The record [addDoc] stores for write fields resolved at time [t]. *)
Definition user_record (i : DocId) (p : jsstring) (u : User) (t : Timestamp)
    : Document :=
  mkDocument i (lit "user") (VString p) (uid u) t t.

(** A snapshot document as [JSON.stringify] writes the message built from it. *)
Definition json_of_doc (env : Env) (d : QueryDocumentSnapshot) : value :=
  VObject
    [(lit "id", VString (snap_id d));
     (lit "role", VString (data_role d));
     (lit "content", VString (data_content d));
     (lit "createdAt",
      match data_createdAt d with
      | Some t => VString (toLocaleString env t)
      | None => VNull
      end);
     (lit "updatedAt",
      match data_updatedAt d with
      | Some t => VString (toLocaleString env t)
      | None => VNull
      end)].

(** The users for whom a run of life events opens a subscription, in
    order: one per mount or user change that finds a user, the latter only
    while the view is mounted. *)
Fixpoint opened (is_mounted : bool) (evs : list LifeEvent) : list jsstring :=
  match evs with
  | [] => []
  | Mount (Some u) :: rest => uid u :: opened true rest
  | Mount None :: rest => opened true rest
  | UserChanged (Some u) :: rest =>
      if is_mounted then uid u :: opened is_mounted rest
      else opened is_mounted rest
  | UserChanged None :: rest => opened is_mounted rest
  | Unmount :: rest => opened false rest
  | Snapshot _ _ :: rest => opened is_mounted rest
  end.

(** The environment [env] with every resolved response given status [st]. *)
Definition with_status (st : Z) (env : Env) : Env :=
  mkEnv (toLocaleString env) (auto_id env) (rejects env)
        (fun rq =>
           match respond env rq with
           | FetchRejected => FetchRejected
           | FetchResolved _ json => FetchResolved st json
           end).



(** The state cells after an event, and after a list of events. *)
Definition apply_event (c : ComponentState) (ev : Event) : ComponentState :=
  match ev with
  | SetPrompt p => mkState p (messages c) (loading c) (editId c)
  | SetLoading b => mkState (prompt c) (messages c) b (editId c)
  | SetEditId e => mkState (prompt c) (messages c) (loading c) e
  | StoreWrite _ | Fetch _ | ConsoleError _ _ => c
  end.

Definition replay (evs : list Event) (c : ComponentState) : ComponentState :=
  fold_left apply_event evs c.

(** A context entry as C8 words it: [{role, content}] and nothing else. *)
Definition role_and_content_entry (m : ChatMessage) : value :=
  VObject [(lit "role", VString (role m)); (lit "content", VString (content m))].

(** C8 as the claim states it: every remote call of the handler is a POST
    to [/api/chat] whose body is [{prompt, messages}] with the draft and the
    last five entries at most of the message list, each entry being
    [{role, content}]. *)
Definition context_entries_hold_role_and_content : Prop :=
  forall (r : ComponentState) (user : option User) (env : Env) (s s' : Sys)
         (evs : list Event) (rq : Request),
    addOrUpdateMessage r user env s = (Normal tt, s') ->
    log s' = log s ++ evs ->
    In rq (remote_calls evs) ->
    url rq = lit "/api/chat"
    /\ method rq = lit "POST"
    /\ body rq
       = VObject [(lit "prompt", VString (prompt r));
                  (lit "messages",
                   VArray (List.map role_and_content_entry
                                    (slice_last 5 (messages r))))].

(** A context entry that is message [m] serialised whole: an object whose
    members are, in this order, [id] when the message has one, [role],
    [content], [createdAt] (a string or [null]) and [updatedAt] when the
    message has one (a string or [null]). *)
Definition whole_message_entry (m : ChatMessage) (v : value) : Prop :=
  exists props,
    v = VObject props
    /\ List.map fst props
       = (match id m with Some _ => [lit "id"] | None => [] end)
         ++ [lit "role"; lit "content"; lit "createdAt"]
         ++ (match updatedAt m with Some _ => [lit "updatedAt"] | None => [] end)
    /\ lookup_prop (lit "role") props = VString (role m)
    /\ lookup_prop (lit "content") props = VString (content m)
    /\ lookup_prop (lit "createdAt") props
       = match createdAt m with Some t => VString t | None => VNull end
    /\ lookup_prop (lit "id") props
       = match id m with Some i => VString i | None => VUndefined end
    /\ lookup_prop (lit "updatedAt") props
       = match updatedAt m with
         | Some (Some t) => VString t
         | Some None => VNull
         | None => VUndefined
         end.

(** *** Tactics *)

(** Symbolic execution of the handler: unfold the monad and split on what
    the environment and the store decide. *)
Ltac unfold_async :=
  unfold addOrUpdateMessage, submit, try_catch_finally, bind, ret, lift,
    storeWrite, fetch, response_json, console_error, setLoading, setPrompt,
    setEditId, emit in *.

Ltac split_step :=
  match goal with
  | |- context [rejects ?e ?n ?w] => destruct (rejects e n w) eqn:?
  | |- context [commit ?i ?w ?W] => destruct (commit i w W) eqn:?
  | |- context [respond ?e ?rq] => destruct (respond e rq) eqn:?
  | |- context [choice_content ?d] => destruct (choice_content d) eqn:?
  | |- context [match ?j with Some _ => _ | None => _ end] =>
      destruct j eqn:?
  | |- context [editing ?r] => destruct (editing r) eqn:?
  end.

Ltac split_env :=
  repeat first
    [ progress unfold ret, lift
    | progress cbn [fst snd comp world log loading prompt editId messages
                    docs clock writes]
    | split_step ].

(** *** The model on small inputs *)

Example trim_strips_both_ends : trim (lit "  hi ") = lit "hi".
Proof. reflexivity. Qed.

Example trim_keeps_inner_space : trim (lit "a b") = lit "a b".
Proof. reflexivity. Qed.

Example trim_of_blank_is_empty :
  truthy_string (trim [32; 9; 10; 160; 12288]%N) = false.
Proof. reflexivity. Qed.

Example slice_last_of_seven :
  slice_last 5 [1; 2; 3; 4; 5; 6; 7] = [3; 4; 5; 6; 7].
Proof. reflexivity. Qed.

Example slice_last_of_two : slice_last 5 [1; 2] = [1; 2].
Proof. reflexivity. Qed.

Example choice_content_of_reply :
  choice_content (reply "Hi there") = Normal (VString (lit "Hi there")).
Proof. reflexivity. Qed.

(** [{}]: [choices] is undefined, reading [[0]] of it throws. *)
Example choice_content_without_choices :
  choice_content (VObject []) = Thrown TypeError.
Proof. reflexivity. Qed.

(** [{choices: []}]: [choices[0]] is undefined, reading [message] throws. *)
Example choice_content_of_empty_choices :
  choice_content (VObject [(lit "choices", VArray [])]) = Thrown TypeError.
Proof. reflexivity. Qed.

(** [{choices: [{message: {}}]}]: nothing throws, the content is undefined. *)
Example choice_content_without_content :
  choice_content
    (VObject [(lit "choices", VArray [VObject [(lit "message", VObject [])]])])
  = Normal VUndefined.
Proof. reflexivity. Qed.

Example query_orders_by_creation :
  List.map doc_id
    (query_messages (lit "u1")
       (mkWorld [mkDocument (lit "late") (lit "user") VNull (lit "u1") 30%Z 30%Z;
                 mkDocument (lit "other") (lit "user") VNull (lit "u2") 5%Z 5%Z;
                 mkDocument (lit "early") (lit "user") VNull (lit "u1") 10%Z 10%Z]
                100%Z 3))
  = [lit "early"; lit "late"].
Proof. reflexivity. Qed.

(** Records created at the same time are served in the order of their ids,
    whatever the order in which they were committed. *)
Example query_breaks_ties_by_id :
  List.map doc_id
    (query_messages (lit "u1")
       (mkWorld [mkDocument (lit "mm") (lit "user") VNull (lit "u1") 10%Z 10%Z;
                 mkDocument (lit "zz") (lit "user") VNull (lit "u1") 20%Z 20%Z;
                 mkDocument (lit "aa") (lit "user") VNull (lit "u1") 20%Z 20%Z]
                100%Z 3))
  = [lit "mm"; lit "aa"; lit "zz"].
Proof. reflexivity. Qed.

(** *** The submission handler *)

(** C2. When the trimmed draft is empty or no user is present, the handler
    returns at once: the system it leaves is the system it found (no event is
    logged, so no store write and no remote call; the store and the four
    state cells are untouched). *)
Theorem noop_when_precondition_fails :
  forall (r : ComponentState) (user : option User) (env : Env) (s : Sys),
    draft_ok r = false \/ user = None ->
    addOrUpdateMessage r user env s = (Normal tt, s).
Proof.
  intros r user env s [H | H].
  - unfold addOrUpdateMessage, draft_ok in *.
    destruct user; [rewrite H|]; reflexivity.
  - subst user. reflexivity.
Qed.

Lemma noop_when_precondition_fails_witness :
  let r := mkState (lit "  ") [] false None in
  let s := sys_of r empty_world in
  addOrUpdateMessage r (Some u1) env_ok s = (Normal tt, s)
  /\ store_writes (log s) = [] /\ remote_calls (log s) = [].
Proof.
  cbv zeta. split; [| split; reflexivity].
  apply noop_when_precondition_fails. left. reflexivity.
Defined.

Lemma replay_keeps_flag :
  forall (evs : list Event) (c : ComponentState),
    existsb touches_loading evs = false ->
    loading (replay evs c) = loading c.
Proof.
  unfold replay. induction evs as [|ev evs IH]; intros c Hn; [reflexivity|].
  cbn in Hn. apply orb_false_iff in Hn as [Hev Hn].
  cbn [fold_left]. rewrite (IH _ Hn).
  destruct ev; try reflexivity. discriminate Hev.
Qed.

(** C5. An invocation that passes the precondition check first sets the
    loading flag (line 56): the flag is then true. The [try] block and its
    [catch] (lines 60-104) run with the flag true throughout: their events
    do not touch the flag, the state cells change as those events say, and
    the flag is true after each of them, whatever the store and the endpoint
    do. The [finally] (line 105) then clears the flag: the handler returns
    normally with loading false. *)
Theorem loading_true_during_false_after :
  forall (r : ComponentState) (u : User) (env : Env) (s : Sys),
    draft_ok r = true ->
    exists (s1 s2 s' : Sys) (mid : list Event),
      setLoading true env s = (Normal tt, s1)
      /\ loading (comp s1) = true
      /\ try_catch_finally
           (submit r u)
           (fun e => console_error (lit "Error submitting message:") e)
           (ret tt) env s1
         = (Normal tt, s2)
      /\ log s2 = log s1 ++ mid
      /\ comp s2 = replay mid (comp s1)
      /\ (forall before after,
            mid = before ++ after ->
            loading (replay before (comp s1)) = true)
      /\ loading (comp s2) = true
      /\ setLoading false env s2 = (Normal tt, s')
      /\ addOrUpdateMessage r (Some u) env s = (Normal tt, s')
      /\ log s' = log s ++ SetLoading true :: mid ++ [SetLoading false]
      /\ existsb touches_loading mid = false
      /\ loading (comp s') = false.
Proof.
  intros r u env s H. unfold draft_ok in H.
  exists (snd (setLoading true env s)).
  unfold_async. rewrite H. cbn [negb snd].
  split_env.
  all: do 3 eexists.
  all: split; [reflexivity|]; split; [reflexivity|].
  all: split; [reflexivity|]; cbn [log comp].
  all: split; [rewrite <- ?app_assoc; cbn [app]; reflexivity|].
  all: match goal with
       | |- _ /\ (forall before after, ?mid = _ -> _) /\ _ =>
           assert (Hmid : existsb touches_loading mid = false) by reflexivity
       end.
  all: split; [reflexivity|].
  all: split; [intros before after Hsplit;
               rewrite Hsplit, existsb_app in Hmid;
               apply orb_false_iff in Hmid as [Hbefore _];
               now rewrite (replay_keeps_flag _ _ Hbefore)|].
  all: split; [reflexivity|]; split; [reflexivity|]; split; [reflexivity|].
  all: cbn [log comp loading].
  all: split; [rewrite <- ?app_assoc; reflexivity|].
  all: split; [exact Hmid|reflexivity].
Qed.

Lemma loading_true_during_false_after_witness :
  let r := mkState (lit "Hello") [] false None in
  let s := sys_of r empty_world in
  exists (s1 s2 s' : Sys) (mid : list Event),
    setLoading true env_offline s = (Normal tt, s1)
    /\ loading (comp s1) = true
    /\ try_catch_finally
         (submit r u1)
         (fun e => console_error (lit "Error submitting message:") e)
         (ret tt) env_offline s1
       = (Normal tt, s2)
    /\ log s2 = log s1 ++ mid
    /\ comp s2 = replay mid (comp s1)
    /\ (forall before after,
          mid = before ++ after ->
          loading (replay before (comp s1)) = true)
    /\ loading (comp s2) = true
    /\ setLoading false env_offline s2 = (Normal tt, s')
    /\ addOrUpdateMessage r (Some u1) env_offline s = (Normal tt, s')
    /\ log s' = log s ++ SetLoading true :: mid ++ [SetLoading false]
    /\ existsb touches_loading mid = false
    /\ loading (comp s') = false.
Proof.
  cbv zeta.
  apply (loading_true_during_false_after
           (mkState (lit "Hello") [] false None) u1 env_offline
           (sys_of (mkState (lit "Hello") [] false None) empty_world)).
  reflexivity.
Defined.



(** The scenario of the specification: user [u1], empty history, draft
    [Hello], the endpoint answers [Hi there]. *)
Example scenario_hello :
  let r := mkState (lit "Hello") [] false None in
  let s' := snd (addOrUpdateMessage r (Some u1) env_ok
                   (sys_of r empty_world)) in
  log s'
  = [SetLoading true;
     StoreWrite (AddDoc (lit "user") (VString (lit "Hello")) (lit "u1")
                        serverTimestamp serverTimestamp);
     Fetch (mkRequest (lit "/api/chat") (lit "POST")
              [(lit "Content-Type", lit "application/json")]
              (VObject [(lit "prompt", VString (lit "Hello"));
                        (lit "messages", VArray [])]));
     StoreWrite (AddDoc (lit "assistant") (VString (lit "Hi there")) (lit "u1")
                        serverTimestamp serverTimestamp);
     SetPrompt [];
     SetLoading false]
  /\ prompt (comp s') = []
  /\ List.map doc_role (docs (world s')) = [lit "user"; lit "assistant"].
Proof. cbv zeta. repeat split; vm_compute; reflexivity. Qed.

(** The scenario where the remote call rejects: the user record stays, no
    assistant record is written, the draft is kept, loading ends false. *)
Example scenario_offline :
  let r := mkState (lit "Hello") [] false None in
  let s' := snd (addOrUpdateMessage r (Some u1) env_offline
                   (sys_of r empty_world)) in
  List.map doc_role (docs (world s')) = [lit "user"]
  /\ List.length (store_writes (log s')) = 1
  /\ prompt (comp s') = lit "Hello"
  /\ loading (comp s') = false.
Proof. cbv zeta. repeat split; vm_compute; reflexivity. Qed.

(** The scenario where the store rejects the first write: no remote call is
    made, nothing is stored, the draft is kept. *)
Example scenario_store_down :
  let r := mkState (lit "Hello") [] false None in
  let s' := snd (addOrUpdateMessage r (Some u1) env_store_down
                   (sys_of r empty_world)) in
  log s'
  = [SetLoading true;
     StoreWrite (AddDoc (lit "user") (VString (lit "Hello")) (lit "u1")
                        serverTimestamp serverTimestamp);
     ConsoleError (lit "Error submitting message:") FirebaseError;
     SetLoading false]
  /\ docs (world s') = []
  /\ prompt (comp s') = lit "Hello".
Proof. cbv zeta. repeat split; vm_compute; reflexivity. Qed.

(** *** Failure inside the [try] block *)

(** C3, counterexample: the view is editing [m1], the update is accepted,
    then the endpoint cannot be reached. The edit marker was cleared right
    after the update and stays cleared. *)
Lemma marker_cleared_when_failure_follows_update :
  ~ draft_and_marker_kept_on_failure.
Proof.
  intros claim.
  pose (r := mkState (lit "new") [] false (Some (lit "m1"))).
  pose (s := sys_of r (mkWorld [doc_m1] 1000%Z 0)).
  destruct (claim r u1 env_offline s NetworkError
              eq_refl eq_refl) as (_ & _ & Hid).
  vm_compute in Hid. discriminate Hid.
Qed.

(** C3, amended: whenever the [try] block fails, the error is logged (as the
    last event before the flag is cleared) and the draft is what it was; the
    edit marker is what it was unless the invocation was an edit whose update
    the store had accepted, in which case it is [null]. *)
Theorem failure_logged_draft_kept :
  forall (r : ComponentState) (u : User) (env : Env) (s : Sys) (e : error),
    draft_ok r = true ->
    try_block_throws r u env s e ->
    exists (s' : Sys) (before : list Event),
      addOrUpdateMessage r (Some u) env s = (Normal tt, s')
      /\ log s' = log s ++ before
                  ++ [ConsoleError (lit "Error submitting message:") e;
                      SetLoading false]
      /\ prompt (comp s') = prompt (comp s)
      /\ editId (comp s')
         = match editing r with
           | Some eid =>
               if accepted env (world s) (UpdateDoc eid (prompt r) serverTimestamp)
               then None
               else editId (comp s)
           | None => editId (comp s)
           end.
Proof.
  intros r u env s e H Hthrow. unfold draft_ok in H.
  unfold try_block_throws, accepted in *.
  unfold_async. rewrite H. cbn [negb].
  revert Hthrow.
  split_env.
  all: cbn [fst]; intros Hthrow; try discriminate Hthrow.
  all: injection Hthrow as <-.
  all: rewrite <- ?app_assoc; cbn [app].
  all: eexists; eexists; split; [reflexivity|]; cbn [log comp prompt editId].
  all: repeat match goal with H : rejects _ _ _ = _ |- _ => rewrite H end.
  all: repeat match goal with H : commit _ _ _ = _ |- _ => rewrite H end.
  all: cbn [negb andb].
  all: (split; [|split; reflexivity]).
  all: lazymatch goal with
       | |- _ ++ ?l = _ ++ ?m ++ _ => unify m (removelast (removelast l))
       end.
  all: cbn; reflexivity.
Qed.

Lemma failure_logged_draft_kept_witness :
  let r := mkState (lit "new") [] false (Some (lit "m1")) in
  let s := sys_of r (mkWorld [doc_m1] 1000%Z 0) in
  exists (s' : Sys) (before : list Event),
    addOrUpdateMessage r (Some u1) env_offline s = (Normal tt, s')
    /\ log s' = log s ++ before
                ++ [ConsoleError (lit "Error submitting message:") NetworkError;
                    SetLoading false]
    /\ prompt (comp s') = prompt (comp s)
    /\ editId (comp s')
       = match editing r with
         | Some eid =>
             if accepted env_offline (world s)
                  (UpdateDoc eid (prompt r) serverTimestamp)
             then None
             else editId (comp s)
         | None => editId (comp s)
         end.
Proof.
  cbv zeta.
  apply (failure_logged_draft_kept
           (mkState (lit "new") [] false (Some (lit "m1"))) u1
           env_offline
           (sys_of (mkState (lit "new") [] false (Some (lit "m1")))
                           (mkWorld [doc_m1] 1000%Z 0))
           NetworkError).
  - reflexivity.
  - reflexivity.
Defined.

(** *** The remote call *)

Lemma slice_last_length :
  forall (A : Type) (n : nat) (a : list A), List.length (slice_last n a) <= n.
Proof.
  intros A n a. unfold slice_last. rewrite length_skipn. lia.
Qed.

Lemma slice_last_suffix :
  forall (A : Type) (n : nat) (a : list A),
    firstn (List.length a - n) a ++ slice_last n a = a.
Proof.
  intros A n a. unfold slice_last. apply firstn_skipn.
Qed.

Lemma json_of_message_role :
  forall m, get_member (json_of_message m) (lit "role") = Normal (VString (role m)).
Proof.
  intros m. unfold json_of_message. destruct (id m); reflexivity.
Qed.

Lemma json_of_message_content :
  forall m,
    get_member (json_of_message m) (lit "content") = Normal (VString (content m)).
Proof.
  intros m. unfold json_of_message. destruct (id m); reflexivity.
Qed.

(** C8, counterexample: the history holds one message that came from a
    snapshot; the entry sent for it carries [id], [createdAt] and
    [updatedAt] besides [role] and [content]. *)
Lemma context_entry_is_the_whole_message :
  ~ context_entries_hold_role_and_content.
Proof.
  intros claim.
  pose (r := mkState (lit "Hello") (newMessages env_ok [private_doc]) false None).
  pose (s := sys_of r empty_world).
  assert (E1 : addOrUpdateMessage r (Some u1) env_ok s
               = (Normal tt, snd (addOrUpdateMessage r (Some u1) env_ok s)))
    by (vm_compute; reflexivity).
  assert (E2 : log (snd (addOrUpdateMessage r (Some u1) env_ok s))
               = log s ++ log (snd (addOrUpdateMessage r (Some u1) env_ok s)))
    by reflexivity.
  assert (E3 : In (chat_request (prompt r) (messages r))
                  (remote_calls (log (snd (addOrUpdateMessage r (Some u1) env_ok s)))))
    by (vm_compute; left; reflexivity).
  destruct (claim r (Some u1) env_ok s _ _ _ E1 E2 E3) as (_ & _ & Hbody).
  vm_compute in Hbody. discriminate Hbody.
Qed.

Lemma whole_message_entry_of_json :
  forall m, whole_message_entry m (json_of_message m).
Proof.
  intros m. unfold whole_message_entry, json_of_message.
  eexists. split; [reflexivity|].
  destruct (id m) as [i|], (updatedAt m) as [[t|]|], (createdAt m) as [t'|];
    cbn; repeat split; reflexivity.
Qed.

(** C8, amended. Whatever the live state cells hold, an invocation makes at
    most one remote call, and it is a POST to [/api/chat] whose JSON body is
    [{prompt, messages}] with the draft of the render the handler closes over
    and the last entries of that render's message list: at most five of
    them, a suffix of the list, each the in-memory message serialised whole
    ([role] and [content] together with [createdAt] and, when the message
    has them, [id] and [updatedAt]). *)
Theorem remote_call_shape :
  forall (r : ComponentState) (user : option User) (env : Env) (s : Sys),
    exists (s' : Sys) (evs : list Event) (entries : list value),
      addOrUpdateMessage r user env s = (Normal tt, s')
      /\ log s' = log s ++ evs
      /\ (remote_calls evs = []
          \/ remote_calls evs
             = [mkRequest (lit "/api/chat") (lit "POST")
                  [(lit "Content-Type", lit "application/json")]
                  (VObject
                     [(lit "prompt", VString (prompt r));
                      (lit "messages", VArray entries)])])
      /\ Forall2 whole_message_entry (slice_last 5 (messages r)) entries
      /\ List.length (slice_last 5 (messages r)) <= 5
      /\ firstn (List.length (messages r) - 5) (messages r)
         ++ slice_last 5 (messages r) = messages r
      /\ Forall (fun m =>
                   get_member (json_of_message m) (lit "role")
                   = Normal (VString (role m))
                   /\ get_member (json_of_message m) (lit "content")
                      = Normal (VString (content m)))
                (slice_last 5 (messages r)).
Proof.
  intros r user env s.
  assert (Hshape : Forall (fun m =>
                   get_member (json_of_message m) (lit "role")
                   = Normal (VString (role m))
                   /\ get_member (json_of_message m) (lit "content")
                      = Normal (VString (content m)))
                (slice_last 5 (messages r))).
  { apply Forall_forall. intros m _. split.
    - apply json_of_message_role.
    - apply json_of_message_content. }
  assert (Hentries : Forall2 whole_message_entry (slice_last 5 (messages r))
                       (List.map json_of_message (slice_last 5 (messages r)))).
  { induction (slice_last 5 (messages r)) as [|m ms IH]; cbn; constructor.
    - apply whole_message_entry_of_json.
    - apply IH. now inversion Hshape. }
  pose proof (slice_last_length _ 5 (messages r)) as Hlen.
  pose proof (slice_last_suffix _ 5 (messages r)) as Hsuf.
  exists (snd (addOrUpdateMessage r user env s)).
  destruct user as [u|].
  2:{ exists [], (List.map json_of_message (slice_last 5 (messages r))).
      rewrite app_nil_r. cbn. auto 10. }
  destruct (truthy_string (trim (prompt r))) eqn:H.
  2:{ exists [], (List.map json_of_message (slice_last 5 (messages r))).
      rewrite app_nil_r. unfold addOrUpdateMessage.
      rewrite H. cbn. auto 10. }
  unfold_async. rewrite H. cbn [negb].
  split_env.
  all: rewrite <- ?app_assoc; cbn [app].
  all: eexists; exists (List.map json_of_message (slice_last 5 (messages r))).
  all: split; [reflexivity|]; cbn [log].
  all: split; [reflexivity|].
  all: split; [cbn [remote_calls]; unfold chat_request; auto|auto 10].
Qed.

Lemma remote_call_shape_witness :
  let r := mkState (lit "Hello") (newMessages env_ok [private_doc]) false None in
  let s := sys_of r empty_world in
  exists (s' : Sys) (evs : list Event) (entries : list value),
    addOrUpdateMessage r (Some u1) env_ok s = (Normal tt, s')
    /\ log s' = log s ++ evs
    /\ (remote_calls evs = []
        \/ remote_calls evs
           = [mkRequest (lit "/api/chat") (lit "POST")
                [(lit "Content-Type", lit "application/json")]
                (VObject
                   [(lit "prompt", VString (prompt r));
                    (lit "messages", VArray entries)])])
    /\ Forall2 whole_message_entry (slice_last 5 (messages r)) entries
    /\ List.length (slice_last 5 (messages r)) <= 5
    /\ firstn (List.length (messages r) - 5) (messages r)
       ++ slice_last 5 (messages r) = messages r
    /\ Forall (fun m =>
                 get_member (json_of_message m) (lit "role")
                 = Normal (VString (role m))
                 /\ get_member (json_of_message m) (lit "content")
                    = Normal (VString (content m)))
              (slice_last 5 (messages r)).
Proof.
  cbv zeta.
  apply (remote_call_shape
           (mkState (lit "Hello") (newMessages env_ok [private_doc]) false None)
           (Some u1) env_ok
           (sys_of (mkState (lit "Hello") (newMessages env_ok [private_doc])
                            false None)
                   empty_world)).
Defined.

(** *** Raw draft *)

(** C9. In a successful submission that is not an edit, the record added for
    the user holds the draft itself, not the trimmed draft, and so does the
    [prompt] member of the request body: the collection grows by the user
    record with content [prompt] and by the assistant record. *)
Theorem raw_draft_is_persisted :
  forall (r : ComponentState) (u : User) (env : Env) (s : Sys),
    draft_ok r = true ->
    editing r = None ->
    try_block_completes r u env s ->
    exists (s' : Sys) (evs : list Event) (rq : Request) (A : Document),
      addOrUpdateMessage r (Some u) env s = (Normal tt, s')
      /\ log s' = log s ++ evs
      /\ docs (world s')
         = docs (world s)
           ++ [mkDocument (auto_id env (writes (world s))) (lit "user")
                          (VString (prompt r)) (uid u)
                          (clock (world s)) (clock (world s));
               A]
      /\ doc_role A = lit "assistant"
      /\ remote_calls evs = [rq]
      /\ get_member (body rq) (lit "prompt") = Normal (VString (prompt r)).
Proof.
  intros r u env s H Hed Hok. unfold draft_ok in H.
  unfold try_block_completes in Hok.
  unfold_async. rewrite H. cbn [negb].
  revert Hok. rewrite Hed.
  split_env.
  all: cbn [fst]; intros Hok; try discriminate Hok.
  all: rewrite <- ?app_assoc; cbn [app].
  all: repeat match goal with
       | H : commit _ (AddDoc _ _ _ _ _) _ = Some _ |- _ =>
           cbn in H; injection H as <-
       end.
  all: do 4 eexists; split; [reflexivity|]; cbn [log world docs resolve].
  all: split; [reflexivity|].
  all: rewrite <- ?app_assoc; cbn [app].
  all: split; [reflexivity|].
  all: cbn; auto.
Qed.

Lemma raw_draft_is_persisted_witness :
  let r := mkState (lit "  hi ") [] false None in
  trim (prompt r) <> prompt r
  /\ exists (s' : Sys) (evs : list Event) (rq : Request) (A : Document),
      addOrUpdateMessage r (Some u1) env_ok
        (sys_of r empty_world) = (Normal tt, s')
      /\ log s' = [] ++ evs
      /\ docs (world s')
         = [] ++ [mkDocument (lit "doc0") (lit "user") (VString (lit "  hi "))
                    (lit "u1") 1000%Z 1000%Z;
                  A]
      /\ doc_role A = lit "assistant"
      /\ remote_calls evs = [rq]
      /\ get_member (body rq) (lit "prompt") = Normal (VString (lit "  hi ")).
Proof.
  cbv zeta. split.
  - vm_compute. discriminate.
  - apply (raw_draft_is_persisted
             (mkState (lit "  hi ") [] false None) u1 env_ok
             (sys_of (mkState (lit "  hi ") [] false None)
                             empty_world)).
    + reflexivity.
    + reflexivity.
    + reflexivity.
Defined.

(** *** Editing a message without an identifier *)

(** What a submission on the create path does: its first write adds a
    [user] record with the draft, none of its writes is an update, the
    records of the collection stay as they are and new ones follow them,
    the first of which, when the store accepts the write, is the [user]
    record with the draft. *)
Lemma create_path_effect :
  forall (c : ComponentState) (u : User) (env : Env) (s : Sys),
    draft_ok c = true ->
    editing c = None ->
    exists (s2 : Sys) (evs : list Event) (added : list Document),
      addOrUpdateMessage c (Some u) env s = (Normal tt, s2)
      /\ log s2 = log s ++ evs
      /\ hd_error (store_writes evs)
         = Some (AddDoc (lit "user") (VString (prompt c)) (uid u)
                        serverTimestamp serverTimestamp)
      /\ (forall i p t, ~ In (UpdateDoc i p t) (store_writes evs))
      /\ docs (world s2) = docs (world s) ++ added
      /\ (accepted env (world s)
                   (AddDoc (lit "user") (VString (prompt c)) (uid u)
                           serverTimestamp serverTimestamp) = true ->
          exists rest,
            added = user_record (auto_id env (writes (world s))) (prompt c) u
                                (clock (world s)) :: rest).
Proof.
  intros c u env s H Hed. unfold draft_ok in H. unfold accepted.
  unfold_async. rewrite H, Hed. cbn [negb].
  split_env.
  all: repeat match goal with
       | E : commit _ (AddDoc _ _ _ _ _) _ = Some _ |- _ =>
           cbn in E; injection E as <-
       | E : commit _ (AddDoc _ _ _ _ _) _ = None |- _ =>
           cbn in E; discriminate E
       end.
  all: rewrite <- ?app_assoc; cbn [app].
  all: do 3 eexists; split; [reflexivity|]; cbn [log world docs].
  all: split; [reflexivity|].
  all: cbn [store_writes hd_error In].
  all: split; [reflexivity|].
  all: split; [intros i p t Hin; intuition discriminate|].
  all: split;
       [first [ rewrite <- app_assoc; reflexivity
              | reflexivity
              | symmetry; apply app_nil_r ]|].
  all: cbn [negb andb resolve clock]; intros Hacc; try discriminate Hacc.
  all: eexists; reflexivity.
Qed.

(** C10. [editMessage] on a message whose [id] is absent copies its content
    into the draft and sets the edit target to [null]; no store is touched.
    The next submission from that view therefore takes the create path: its
    first write adds a record with role [user] and the copied content, and
    none of its writes is an update; every record of the collection stays as
    it is, and when the store accepts the write a new [user] record with the
    copied content follows them. *)
Theorem edit_without_id_then_submit_creates :
  forall (message : ChatMessage) (env : Env) (s : Sys),
    id message = None ->
    exists s1 : Sys,
      editMessage message env s = (Normal tt, s1)
      /\ prompt (comp s1) = content message
      /\ editId (comp s1) = None
      /\ world s1 = world s
      /\ forall (u : User) (env' : Env),
           draft_ok (comp s1) = true ->
           exists (s2 : Sys) (evs : list Event) (added : list Document),
             addOrUpdateMessage (comp s1) (Some u) env' s1 = (Normal tt, s2)
             /\ log s2 = log s1 ++ evs
             /\ hd_error (store_writes evs)
                = Some (AddDoc (lit "user") (VString (content message)) (uid u)
                               serverTimestamp serverTimestamp)
             /\ (forall i c t, ~ In (UpdateDoc i c t) (store_writes evs))
             /\ docs (world s2) = docs (world s) ++ added
             /\ (accepted env' (world s)
                          (AddDoc (lit "user") (VString (content message)) (uid u)
                                  serverTimestamp serverTimestamp) = true ->
                 exists rest,
                   added = mkDocument (auto_id env' (writes (world s)))
                                      (lit "user") (VString (content message))
                                      (uid u) (clock (world s)) (clock (world s))
                           :: rest).
Proof.
  intros message env s Hid.
  unfold editMessage, id_or_null. rewrite Hid.
  unfold bind, setPrompt, setEditId, emit.
  cbn [comp world log prompt messages loading editId].
  eexists. split; [reflexivity|].
  cbn [comp world log prompt messages loading editId].
  do 3 (split; [reflexivity|]).
  intros u env' H.
  match goal with
  | |- exists s2 evs added, addOrUpdateMessage ?c _ _ ?s1 = _ /\ _ =>
      destruct (create_path_effect c u env' s1 H eq_refl)
        as (s2 & evs & added & E1 & E2 & E3 & E4 & E5 & E6)
  end.
  exists s2, evs, added. cbn [prompt world] in *.
  repeat (split; [assumption|]). exact E6.
Qed.

Lemma edit_without_id_then_submit_creates_witness :
  let message := mkChatMessage None (lit "user") (lit "draft") None None in
  let s := sys_of initial_state empty_world in
  exists s1 : Sys,
    editMessage message env_ok s = (Normal tt, s1)
    /\ prompt (comp s1) = lit "draft"
    /\ editId (comp s1) = None
    /\ world s1 = world s
    /\ forall (u : User) (env' : Env),
         draft_ok (comp s1) = true ->
         exists (s2 : Sys) (evs : list Event) (added : list Document),
           addOrUpdateMessage (comp s1) (Some u) env' s1 = (Normal tt, s2)
           /\ log s2 = log s1 ++ evs
           /\ hd_error (store_writes evs)
              = Some (AddDoc (lit "user") (VString (lit "draft")) (uid u)
                             serverTimestamp serverTimestamp)
           /\ (forall i c t, ~ In (UpdateDoc i c t) (store_writes evs))
           /\ docs (world s2) = docs (world s) ++ added
           /\ (accepted env' (world s)
                        (AddDoc (lit "user") (VString (lit "draft")) (uid u)
                                serverTimestamp serverTimestamp) = true ->
               exists rest,
                 added = mkDocument (auto_id env' (writes (world s)))
                                    (lit "user") (VString (lit "draft"))
                                    (uid u) (clock (world s)) (clock (world s))
                         :: rest).
Proof.
  cbv zeta.
  apply (edit_without_id_then_submit_creates
           (mkChatMessage None (lit "user") (lit "draft") None None)
           env_ok (sys_of initial_state empty_world)).
  reflexivity.
Defined.

(** *** Order of the stored list *)

Lemma str_eqb_eq : forall a b, str_eqb a b = true <-> a = b.
Proof.
  induction a as [|x a IH]; destruct b as [|y b]; cbn; split;
    try discriminate; try reflexivity.
  - intros H. apply andb_true_iff in H as [Hx Hab].
    apply N.eqb_eq in Hx. apply IH in Hab. congruence.
  - intros H. injection H as -> ->. rewrite N.eqb_refl. cbn. now apply IH.
Qed.


Lemma insert_by_createdAt_in :
  forall x d ds, In x (insert_by_createdAt d ds) <-> x = d \/ In x ds.
Proof.
  intros x d ds. induction ds as [|e ds IH]; cbn.
  - intuition.
  - destruct (served_before d e); cbn; [intuition|].
    rewrite IH. intuition.
Qed.

Lemma served_before_le :
  forall d e, served_before d e = true -> (doc_createdAt d <= doc_createdAt e)%Z.
Proof.
  intros d e H. unfold served_before in H.
  apply orb_true_iff in H as [H | H].
  - apply Z.ltb_lt in H. lia.
  - apply andb_true_iff in H as [H _]. apply Z.eqb_eq in H. lia.
Qed.

Lemma not_served_before_ge :
  forall d e, served_before d e = false -> (doc_createdAt e <= doc_createdAt d)%Z.
Proof.
  intros d e H. unfold served_before in H.
  apply orb_false_iff in H as [H _]. apply Z.ltb_ge in H. exact H.
Qed.

Lemma insert_by_createdAt_ascending :
  forall d ds,
    StronglySorted (fun a b => (doc_createdAt a <= doc_createdAt b)%Z) ds ->
    StronglySorted (fun a b => (doc_createdAt a <= doc_createdAt b)%Z)
                   (insert_by_createdAt d ds).
Proof.
  intros d ds Hs. induction Hs as [|e ds Hs IH He]; cbn.
  - repeat constructor.
  - destruct (served_before d e) eqn:E.
    + constructor; [now constructor|].
      apply served_before_le in E. constructor; [exact E|].
      rewrite Forall_forall in *. intros x Hx. specialize (He x Hx). lia.
    + constructor; [exact IH|].
      apply not_served_before_ge in E.
      rewrite Forall_forall in *. intros x Hx.
      apply insert_by_createdAt_in in Hx as [-> | Hx]; [exact E|now apply He].
Qed.

(** What the query of [fetchMessages] serves is in ascending order of
    creation time, whatever the collection holds. *)
Lemma query_serves_ascending :
  forall (uid : jsstring) (W : World),
    StronglySorted (fun a b => (doc_createdAt a <= doc_createdAt b)%Z)
                   (query_messages uid W).
Proof.
  intros uid W. unfold query_messages, orderBy_createdAt_asc.
  induction (filter (fun d => str_eqb (doc_userId d) uid) (docs W)) as [|d ds IH].
  - constructor.
  - cbn. now apply insert_by_createdAt_ascending.
Qed.



(** *** Editing a stored message *)

(** C7, counterexample: the history holds [m1] only; it is edited and the
    submission succeeds. The reply is appended at the tail, right after [m1]. *)
Lemma reply_is_next_to_last_message :
  ~ edit_appends_reply_away_from_target.
Proof.
  intros claim.
  pose (r := mkState (lit "new") [] false (Some (lit "m1"))).
  pose (s := sys_of r (mkWorld [doc_m1] 1000%Z 0)).
  destruct (claim r u1 env_ok s doc_m1
              eq_refl eq_refl (or_introl eq_refl) eq_refl)
    as (A & before & Hq & Hlen & Hin & Hrole & Hadj).
  vm_compute in Hq.
  destruct before as [|b0 [|b1 before]]; cbn in Hlen; try discriminate Hlen.
  cbn in Hq. injection Hq as Hb HA. subst b0 A.
  apply Hadj. exists [], []. left.
  vm_compute. reflexivity.
Qed.

(** After an accepted update followed by an unreachable endpoint, nothing is
    appended at all. *)
Example edit_then_offline_appends_nothing :
  let r := mkState (lit "new") [] false (Some (lit "m1")) in
  let s := sys_of r (mkWorld [doc_m1] 1000%Z 0) in
  docs (world (snd (addOrUpdateMessage r (Some u1) env_offline s)))
  = [edited doc_m1 (lit "new") 1000%Z].
Proof. vm_compute. reflexivity. Qed.

Lemma apply_update_userId :
  forall i p t d, doc_userId (apply_update i p t d) = doc_userId d.
Proof. intros. unfold apply_update. destruct (str_eqb _ _); reflexivity. Qed.

Lemma apply_update_createdAt :
  forall i p t d, doc_createdAt (apply_update i p t d) = doc_createdAt d.
Proof. intros. unfold apply_update. destruct (str_eqb _ _); reflexivity. Qed.

Lemma filter_map_update :
  forall i p t uid ds,
    filter (fun d => str_eqb (doc_userId d) uid) (List.map (apply_update i p t) ds)
    = List.map (apply_update i p t) (filter (fun d => str_eqb (doc_userId d) uid) ds).
Proof.
  intros i p t uid ds. induction ds as [|d ds IH]; [reflexivity|].
  cbn. rewrite apply_update_userId.
  destruct (str_eqb (doc_userId d) uid); cbn; now rewrite IH.
Qed.

Lemma apply_update_id :
  forall i p t d, doc_id (apply_update i p t d) = doc_id d.
Proof. intros. unfold apply_update. destruct (str_eqb _ _); reflexivity. Qed.

Lemma served_before_update :
  forall i p t d e,
    served_before (apply_update i p t d) (apply_update i p t e)
    = served_before d e.
Proof.
  intros. unfold served_before.
  now rewrite !apply_update_createdAt, !apply_update_id.
Qed.

Lemma insert_map_update :
  forall i p t d ds,
    insert_by_createdAt (apply_update i p t d) (List.map (apply_update i p t) ds)
    = List.map (apply_update i p t) (insert_by_createdAt d ds).
Proof.
  intros i p t d ds. induction ds as [|e ds IH]; [reflexivity|].
  cbn. rewrite served_before_update.
  destruct (served_before d e); cbn; [reflexivity|].
  now rewrite IH.
Qed.

Lemma orderBy_map_update :
  forall i p t ds,
    orderBy_createdAt_asc (List.map (apply_update i p t) ds)
    = List.map (apply_update i p t) (orderBy_createdAt_asc ds).
Proof.
  intros i p t ds. induction ds as [|d ds IH]; [reflexivity|].
  cbn. unfold orderBy_createdAt_asc in IH. rewrite IH.
  apply insert_map_update.
Qed.

Lemma insert_before_latest :
  forall d ds a,
    (doc_createdAt d < doc_createdAt a)%Z ->
    insert_by_createdAt d (ds ++ [a]) = insert_by_createdAt d ds ++ [a].
Proof.
  intros d ds a Hlt. induction ds as [|e ds IH]; cbn.
  - unfold served_before. apply Z.ltb_lt in Hlt. now rewrite Hlt.
  - destruct (served_before d e); [reflexivity|].
    cbn. now rewrite IH.
Qed.

Lemma orderBy_latest_last :
  forall ds a,
    Forall (fun d => (doc_createdAt d < doc_createdAt a)%Z) ds ->
    orderBy_createdAt_asc (ds ++ [a]) = orderBy_createdAt_asc ds ++ [a].
Proof.
  intros ds a Hall. induction Hall as [|d ds Hd Hall IH]; [reflexivity|].
  cbn. unfold orderBy_createdAt_asc in IH. rewrite IH.
  now apply insert_before_latest.
Qed.

(** C7, amended: in an edit-mode submission whose [try] block runs to its
    end (update, remote call and assistant write all succeed), in a store
    whose records are stamped no later than the server clock, every record
    keeps its id, role, owner and [createdAt]; the records with the edited id
    get the draft as content and the commit time as [updatedAt], the others
    are unchanged; and exactly one record, with role [assistant] and the
    user's uid, is appended, after every earlier record of the user's
    history (so next to the edited record exactly when that one was last). *)
Theorem edit_rewrites_target_and_appends_reply :
  forall (r : ComponentState) (u : User) (env : Env) (s : Sys) (eid : DocId),
    draft_ok r = true ->
    editing r = Some eid ->
    try_block_completes r u env s ->
    Forall (fun d => (doc_createdAt d <= clock (world s))%Z) (docs (world s)) ->
    exists (s' : Sys) (A : Document),
      addOrUpdateMessage r (Some u) env s = (Normal tt, s')
      /\ docs (world s')
         = List.map (apply_update eid (prompt r) (clock (world s))) (docs (world s))
           ++ [A]
      /\ doc_role A = lit "assistant"
      /\ doc_userId A = uid u
      /\ (forall M, In M (docs (world s)) ->
            apply_update eid (prompt r) (clock (world s)) M
            = if str_eqb (doc_id M) eid
              then edited M (prompt r) (clock (world s))
              else M)
      /\ query_messages (uid u) (world s')
         = List.map (apply_update eid (prompt r) (clock (world s)))
                    (query_messages (uid u) (world s))
           ++ [A].
Proof.
  intros r u env s eid H Hed Hok Hstamps. unfold draft_ok in H.
  unfold try_block_completes in Hok.
  unfold_async. rewrite H. cbn [negb].
  revert Hok. rewrite Hed.
  split_env.
  all: cbn [fst]; intros Hok; try discriminate Hok.
  all: rewrite <- ?app_assoc; cbn [app].
  match goal with
  | H1 : commit _ (UpdateDoc _ _ _) _ = Some _ |- _ =>
      unfold commit in H1; destruct (has_doc eid (docs (world s)));
      [injection H1 as <-|discriminate H1]
  end.
  match goal with
  | H2 : commit _ (AddDoc _ _ _ _ _) _ = Some _ |- _ =>
      cbn in H2; injection H2 as <-
  end.
  do 2 eexists. split; [reflexivity|]. cbn [world docs].
  split; [reflexivity|]. cbn [doc_role doc_userId].
  split; [reflexivity|]. split; [reflexivity|].
  split; [intros M _; reflexivity|].
  unfold query_messages. cbn [docs].
  rewrite filter_app, filter_map_update. cbn [filter doc_userId].
  assert (E : str_eqb (uid u) (uid u) = true) by now apply str_eqb_eq.
  rewrite E. rewrite orderBy_latest_last.
  - now rewrite orderBy_map_update.
  - apply Forall_forall. intros d Hd. cbn [doc_createdAt].
    apply in_map_iff in Hd as (d0 & <- & Hd0).
    rewrite apply_update_createdAt.
    apply filter_In in Hd0 as [Hd0 _].
    rewrite Forall_forall in Hstamps. specialize (Hstamps d0 Hd0). lia.
Qed.

Lemma edit_rewrites_target_and_appends_reply_witness :
  let r := mkState (lit "new") [] false (Some (lit "m1")) in
  let s := sys_of r (mkWorld [doc_m1] 1000%Z 0) in
  exists (s' : Sys) (A : Document),
    addOrUpdateMessage r (Some u1) env_ok s = (Normal tt, s')
    /\ docs (world s')
       = List.map (apply_update (lit "m1") (prompt r) (clock (world s)))
                  (docs (world s))
         ++ [A]
    /\ doc_role A = lit "assistant"
    /\ doc_userId A = uid u1
    /\ (forall M, In M (docs (world s)) ->
          apply_update (lit "m1") (prompt r) (clock (world s)) M
          = if str_eqb (doc_id M) (lit "m1")
            then edited M (prompt r) (clock (world s))
            else M)
    /\ query_messages (uid u1) (world s')
       = List.map (apply_update (lit "m1") (prompt r) (clock (world s)))
                  (query_messages (uid u1) (world s))
         ++ [A].
Proof.
  cbv zeta.
  apply (edit_rewrites_target_and_appends_reply
           (mkState (lit "new") [] false (Some (lit "m1"))) u1
           env_ok
           (sys_of (mkState (lit "new") [] false (Some (lit "m1")))
                           (mkWorld [doc_m1] 1000%Z 0))
           (lit "m1")).
  - reflexivity.
  - reflexivity.
  - reflexivity.
  - repeat constructor. cbn. lia.
Defined.

(** *** Life of the subscription *)

(** React does run a function that an effect returned: the registration it
    closes over is gone after unmount. *)
Lemma unmount_runs_kept_cleanup :
  forall env eff rt h,
    kept_cleanup rt = Some (Unsubscribe h) ->
    registered h (listeners (step env eff rt Unmount)) = false.
Proof.
  intros env eff rt h Hk. cbn. rewrite Hk. cbn.
  unfold registered. induction (listeners rt) as [|l ls IH]; [reflexivity|].
  cbn. destruct (Nat.eqb (handle l) h) eqn:E; cbn; [exact IH|].
  now rewrite E.
Qed.

(** The component's effect hands React nothing to run. *)
Lemma step_keeps_no_cleanup :
  forall env rt ev,
    kept_cleanup rt = None -> kept_cleanup (step env effect rt ev) = None.
Proof.
  intros env rt ev Hk. destruct ev as [user|user| |h ds]; cbn.
  - unfold effect, fetchMessages. destruct user; reflexivity.
  - destruct (mounted rt); [|exact Hk].
    unfold effect, fetchMessages. destruct user; reflexivity.
  - reflexivity.
  - destruct (registered h (listeners rt)); exact Hk.
Qed.

Lemma step_keeps_listeners :
  forall env rt ev,
    kept_cleanup rt = None ->
    exists extra, listeners (step env effect rt ev) = listeners rt ++ extra.
Proof.
  intros env rt ev Hk. destruct ev as [user|user| |h ds]; cbn.
  - unfold effect, fetchMessages. destruct user; cbn.
    + eexists; reflexivity.
    + exists []. now rewrite app_nil_r.
  - destruct (mounted rt).
    + rewrite Hk. unfold effect, fetchMessages. destruct user; cbn.
      * eexists; reflexivity.
      * exists []. now rewrite app_nil_r.
    + exists []. now rewrite app_nil_r.
  - rewrite Hk. exists []. now rewrite app_nil_r.
  - destruct (registered h (listeners rt)); exists []; now rewrite app_nil_r.
Qed.

Lemma run_keeps_no_cleanup :
  forall env evs, kept_cleanup (run env effect evs) = None.
Proof.
  intros env evs. unfold run.
  assert (G : forall rt, kept_cleanup rt = None ->
                kept_cleanup (fold_left (step env effect) evs rt) = None).
  { induction evs as [|ev evs IH]; intros rt Hk; [exact Hk|].
    cbn. apply IH. now apply step_keeps_no_cleanup. }
  now apply G.
Qed.

(** No event ever removes a registration: whatever happens to the view,
    every listener opened so far is still served. *)
Lemma subscriptions_are_never_torn_down :
  forall env evs ev,
    exists extra,
      listeners (run env effect (evs ++ [ev]))
      = listeners (run env effect evs) ++ extra.
Proof.
  intros env evs ev. unfold run. rewrite fold_left_app. cbn.
  apply step_keeps_listeners. apply run_keeps_no_cleanup.
Qed.

(** C4, at the failing inputs. User [u1] signs in and the view subscribes;
    the user changes to [u2]; the store then delivers a snapshot of [u1]'s
    query to the first registration: it is still registered, its callback
    runs and the view of [u2] now shows [u1]'s message. Likewise after
    unmount the registration is still there and its callback still runs
    (React drops the state update of the unmounted view). *)
Theorem stale_subscription_still_writes :
  let changed :=
    run env_ok effect
        [Mount (Some u1); UserChanged (Some u2);
         Snapshot 0 [private_doc]] in
  let gone :=
    run env_ok effect
        [Mount (Some u1); Unmount; Snapshot 0 [private_doc]] in
  (current_user changed = Some u2
   /\ List.map listens_for (listeners changed) = [lit "u1"; lit "u2"]
   /\ List.map content (messages (view changed)) = [lit "for u1 only"])
  /\ (mounted gone = false
      /\ List.map listens_for (listeners gone) = [lit "u1"]
      /\ callbacks_run gone = 1).
Proof. cbv zeta. repeat split; vm_compute; reflexivity. Qed.

(** ** Further properties of the component *)

(** *** The guard of the handler *)

Lemma forallb_trimStart :
  forall s, forallb is_white_space (trimStart s) = forallb is_white_space s.
Proof.
  induction s as [|c s IH]; [reflexivity|].
  cbn. destruct (is_white_space c) eqn:E; cbn; [exact IH|].
  now rewrite E.
Qed.

Lemma trimStart_empty :
  forall s, truthy_string (trimStart s) = negb (forallb is_white_space s).
Proof.
  induction s as [|c s IH]; [reflexivity|].
  cbn. destruct (is_white_space c); cbn; [exact IH|reflexivity].
Qed.

Lemma forallb_rev_eq :
  forall (A : Type) (f : A -> bool) (l : list A),
    forallb f (rev l) = forallb f l.
Proof.
  intros A f l. induction l as [|x l IH]; [reflexivity|].
  cbn. rewrite forallb_app, IH. cbn. rewrite andb_true_r. apply andb_comm.
Qed.

Lemma truthy_rev : forall s, truthy_string (rev s) = truthy_string s.
Proof.
  intros s. destruct s as [|c s]; [reflexivity|].
  cbn. destruct (rev s); reflexivity.
Qed.

(** X1. The guard [!prompt.trim()] lets a draft through exactly when some
    code unit of it is not white space; leading and trailing white space
    around such a code unit do not matter. *)
Theorem guard_passes_iff_some_visible_character :
  forall r : ComponentState,
    draft_ok r = negb (forallb is_white_space (prompt r)).
Proof.
  intros r. unfold draft_ok, trim, trimEnd.
  rewrite truthy_rev, trimStart_empty, forallb_rev_eq.
  now rewrite forallb_trimStart.
Qed.

(** *** The submission handler, path by path *)

(** X2. When the [try] block runs to its end, the draft is cleared, the
    flag is down, nothing was logged to the console, and the edit marker is
    [null] after an edit and untouched otherwise. *)
Theorem success_clears_draft_and_marker :
  forall (r : ComponentState) (u : User) (env : Env) (s : Sys),
    draft_ok r = true ->
    try_block_completes r u env s ->
    exists (s' : Sys) (evs : list Event),
      addOrUpdateMessage r (Some u) env s = (Normal tt, s')
      /\ log s' = log s ++ evs
      /\ prompt (comp s') = []
      /\ loading (comp s') = false
      /\ editId (comp s')
         = match editing r with
           | Some _ => None
           | None => editId (comp s)
           end
      /\ forall msg e, ~ In (ConsoleError msg e) evs.
Proof.
  intros r u env s H Hok. unfold draft_ok in H.
  unfold try_block_completes in Hok.
  unfold_async. rewrite H. cbn [negb].
  revert Hok.
  split_env.
  all: cbn [fst]; intros Hok; try discriminate Hok.
  all: rewrite <- ?app_assoc; cbn [app].
  all: do 2 eexists; split; [reflexivity|]; cbn [log comp prompt loading editId].
  all: split; [reflexivity|].
  all: repeat (split; [reflexivity|]).
  all: intros msg e Hin; cbn in Hin; intuition discriminate.
Qed.

Lemma success_clears_draft_and_marker_witness :
  let r := mkState (lit "new") [] false (Some (lit "m1")) in
  let s := sys_of r (mkWorld [doc_m1] 1000%Z 0) in
  exists (s' : Sys) (evs : list Event),
    addOrUpdateMessage r (Some u1) env_ok s = (Normal tt, s')
    /\ log s' = log s ++ evs
    /\ prompt (comp s') = []
    /\ loading (comp s') = false
    /\ editId (comp s') = match editing r with
                          | Some _ => None
                          | None => editId (comp s)
                          end
    /\ forall msg e, ~ In (ConsoleError msg e) evs.
Proof.
  cbv zeta.
  apply (success_clears_draft_and_marker
           (mkState (lit "new") [] false (Some (lit "m1"))) u1 env_ok
           (sys_of (mkState (lit "new") [] false (Some (lit "m1")))
                   (mkWorld [doc_m1] 1000%Z 0))).
  - reflexivity.
  - reflexivity.
Defined.

(** X3. The handler never writes the message list: whatever happens, the
    [messages] cell is what it was (only the snapshot callback sets it). *)
Theorem handler_leaves_message_list :
  forall (r : ComponentState) (user : option User) (env : Env) (s : Sys),
    messages (comp (snd (addOrUpdateMessage r user env s))) = messages (comp s).
Proof.
  intros r user env s.
  destruct user as [u|]; [|reflexivity].
  destruct (truthy_string (trim (prompt r))) eqn:H.
  2:{ unfold addOrUpdateMessage. rewrite H. reflexivity. }
  unfold_async. rewrite H. cbn [negb].
  split_env.
  all: reflexivity.
Qed.

(** X4. When the store does not accept the user write, the handler stops
    there: the error is logged, no remote call is made, no second write is
    tried, the collection, the draft and the edit marker are what they were. *)
Theorem rejected_first_write_stops_the_flow :
  forall (r : ComponentState) (u : User) (env : Env) (s : Sys),
    draft_ok r = true ->
    accepted env (world s) (user_write r u) = false ->
    exists s' : Sys,
      addOrUpdateMessage r (Some u) env s = (Normal tt, s')
      /\ log s' = log s ++ [SetLoading true;
                            StoreWrite (user_write r u);
                            ConsoleError (lit "Error submitting message:")
                                         FirebaseError;
                            SetLoading false]
      /\ docs (world s') = docs (world s)
      /\ prompt (comp s') = prompt (comp s)
      /\ editId (comp s') = editId (comp s).
Proof.
  intros r u env s H Hrej. unfold draft_ok in H.
  unfold accepted, user_write in Hrej.
  unfold_async. rewrite H. cbn [negb].
  unfold user_write.
  split_env.
  all: repeat match goal with
       | E : editing _ = _ |- _ => rewrite E in Hrej; clear E
       | E : rejects _ _ _ = _ |- _ => rewrite E in Hrej; clear E
       | E : commit _ _ _ = _ |- _ => rewrite E in Hrej; clear E
       end.
  all: try discriminate Hrej.
  all: rewrite <- ?app_assoc; cbn [app].
  all: eexists; split; [reflexivity|]; cbn [log world docs comp prompt editId].
  all: repeat split; reflexivity.
Qed.

Lemma rejected_first_write_stops_the_flow_witness :
  let r := mkState (lit "Hello") [] false None in
  let s := sys_of r empty_world in
  exists s' : Sys,
    addOrUpdateMessage r (Some u1) env_store_down s = (Normal tt, s')
    /\ log s' = log s ++ [SetLoading true;
                          StoreWrite (user_write r u1);
                          ConsoleError (lit "Error submitting message:")
                                       FirebaseError;
                          SetLoading false]
    /\ docs (world s') = docs (world s)
    /\ prompt (comp s') = prompt (comp s)
    /\ editId (comp s') = editId (comp s).
Proof.
  cbv zeta.
  apply (rejected_first_write_stops_the_flow
           (mkState (lit "Hello") [] false None) u1 env_store_down
           (sys_of (mkState (lit "Hello") [] false None) empty_world)).
  - reflexivity.
  - reflexivity.
Defined.

(** X5. When the user record was added and the remote call then does not
    succeed, the user record stays in the collection, no assistant write is
    tried, exactly one remote call was made, an error is logged and the
    draft is kept. *)
Theorem remote_failure_leaves_user_record :
  forall (r : ComponentState) (u : User) (env : Env) (s : Sys),
    draft_ok r = true ->
    editing r = None ->
    accepted env (world s) (user_write r u) = true ->
    remote_fails env (chat_request (prompt r) (messages r)) ->
    exists (s' : Sys) (evs : list Event) (e : error),
      addOrUpdateMessage r (Some u) env s = (Normal tt, s')
      /\ log s' = log s ++ evs
      /\ docs (world s')
         = docs (world s)
           ++ [user_record (auto_id env (writes (world s))) (prompt r) u
                           (clock (world s))]
      /\ store_writes evs = [user_write r u]
      /\ remote_calls evs = [chat_request (prompt r) (messages r)]
      /\ In (ConsoleError (lit "Error submitting message:") e) evs
      /\ prompt (comp s') = prompt (comp s).
Proof.
  intros r u env s H Hed Hacc Hfail. unfold draft_ok in H.
  unfold accepted, user_write, remote_fails in *.
  unfold_async. rewrite H. cbn [negb].
  rewrite Hed in *.
  split_env.
  all: repeat match goal with
       | E : rejects _ _ _ = _ |- _ => rewrite ?E in Hacc; clear E
       end.
  all: try (cbn in Hacc; discriminate Hacc).
  all: try (rewrite Heqo in Hacc; discriminate Hacc).
  all: try (exfalso; eapply (Hfail _ _ _ eq_refl); eassumption).
  all: repeat match goal with
       | E : commit _ (AddDoc _ _ _ _ _) _ = Some _ |- _ =>
           cbn in E; injection E as <-
       end.
  all: rewrite <- ?app_assoc; cbn [app].
  all: do 3 eexists; split; [reflexivity|];
       cbn [log world docs comp prompt resolve].
  all: split; [reflexivity|].
  all: split; [reflexivity|].
  all: cbn [store_writes remote_calls In].
  all: split; [reflexivity|]; split; [reflexivity|]; split; [|reflexivity].
  all: auto 10.
Qed.

Lemma remote_failure_leaves_user_record_witness :
  let r := mkState (lit "Hello") [] false None in
  let s := sys_of r empty_world in
  exists (s' : Sys) (evs : list Event) (e : error),
    addOrUpdateMessage r (Some u1) env_offline s = (Normal tt, s')
    /\ log s' = log s ++ evs
    /\ docs (world s')
       = docs (world s)
         ++ [user_record (auto_id env_offline (writes (world s))) (prompt r) u1
                         (clock (world s))]
    /\ store_writes evs = [user_write r u1]
    /\ remote_calls evs = [chat_request (prompt r) (messages r)]
    /\ In (ConsoleError (lit "Error submitting message:") e) evs
    /\ prompt (comp s') = prompt (comp s).
Proof.
  cbv zeta.
  apply (remote_failure_leaves_user_record
           (mkState (lit "Hello") [] false None) u1 env_offline
           (sys_of (mkState (lit "Hello") [] false None) empty_world)).
  - reflexivity.
  - reflexivity.
  - reflexivity.
  - intros status data c Hr. vm_compute in Hr. discriminate Hr.
Defined.

Lemma update_path_first_write :
  forall (c : ComponentState) (u : User) (env : Env) (s : Sys) (eid : DocId),
    draft_ok c = true ->
    editing c = Some eid ->
    exists (s2 : Sys) (evs : list Event),
      addOrUpdateMessage c (Some u) env s = (Normal tt, s2)
      /\ log s2 = log s ++ evs
      /\ hd_error (store_writes evs)
         = Some (UpdateDoc eid (prompt c) serverTimestamp).
Proof.
  intros c u env s eid H Hed. unfold draft_ok in H.
  unfold_async. rewrite H, Hed. cbn [negb].
  split_env.
  all: rewrite <- ?app_assoc; cbn [app].
  all: do 2 eexists; split; [reflexivity|]; cbn [log].
  all: split; reflexivity.
Qed.

(** X6. An edit whose update was accepted and whose remote call then did
    not succeed leaves the view with the draft still in place and the edit
    marker already [null]; submitting again from that view adds a new
    [user] record with the same draft instead of updating the edited one:
    the first write of the retry is that [addDoc], none of its writes is an
    update, the collection keeps its records as the failed edit left them,
    and when the store accepts the write the new [user] record follows them. *)
Theorem retry_after_failed_edit_adds_a_record :
  forall (r : ComponentState) (u : User) (env : Env) (s : Sys) (eid : DocId),
    draft_ok r = true ->
    editing r = Some eid ->
    prompt (comp s) = prompt r ->
    accepted env (world s) (user_write r u) = true ->
    remote_fails env (chat_request (prompt r) (messages r)) ->
    exists s' : Sys,
      addOrUpdateMessage r (Some u) env s = (Normal tt, s')
      /\ prompt (comp s') = prompt r
      /\ editId (comp s') = None
      /\ loading (comp s') = false
      /\ forall env2 : Env,
           exists (s2 : Sys) (evs : list Event) (added : list Document),
             addOrUpdateMessage (comp s') (Some u) env2 s' = (Normal tt, s2)
             /\ log s2 = log s' ++ evs
             /\ hd_error (store_writes evs)
                = Some (AddDoc (lit "user") (VString (prompt r)) (uid u)
                               serverTimestamp serverTimestamp)
             /\ (forall i p t, ~ In (UpdateDoc i p t) (store_writes evs))
             /\ docs (world s2) = docs (world s') ++ added
             /\ (accepted env2 (world s')
                          (AddDoc (lit "user") (VString (prompt r)) (uid u)
                                  serverTimestamp serverTimestamp) = true ->
                 exists rest,
                   added = mkDocument (auto_id env2 (writes (world s')))
                                      (lit "user") (VString (prompt r)) (uid u)
                                      (clock (world s')) (clock (world s'))
                           :: rest).
Proof.
  intros r u env s eid H Hed Hlive Hacc Hfail.
  assert (Hdraft := H). unfold draft_ok in H.
  unfold accepted at 1 in Hacc. unfold user_write, remote_fails in *.
  unfold addOrUpdateMessage at 1.
  unfold submit, try_catch_finally, bind, ret, lift, storeWrite, fetch,
    response_json, console_error, setLoading, setPrompt, setEditId, emit.
  rewrite H. cbn [negb].
  rewrite Hed in *.
  split_env.
  all: repeat match goal with
       | E : rejects _ _ _ = _ |- _ => rewrite ?E in Hacc; clear E
       end.
  all: try (cbn in Hacc; discriminate Hacc).
  all: try (rewrite Heqo in Hacc; discriminate Hacc).
  all: try (exfalso; eapply (Hfail _ _ _ eq_refl); eassumption).
  all: eexists; split; [reflexivity|]; cbn [comp prompt editId loading].
  all: split; [exact Hlive|]; split; [reflexivity|]; split; [reflexivity|].
  all: intros env2.
  all: match goal with
       | |- exists s2 evs added, addOrUpdateMessage ?c _ _ ?s1 = _ /\ _ =>
           destruct (create_path_effect c u env2 s1)
             as (s2 & evs & added & E1 & E2 & E3 & E4 & E5 & E6);
           [unfold draft_ok; cbn [prompt]; rewrite Hlive; exact H
           |reflexivity
           |exists s2, evs, added; cbn [prompt] in E3, E6;
            rewrite Hlive in E3, E6; auto 10]
       end.
Qed.

Lemma retry_after_failed_edit_adds_a_record_witness :
  let r := mkState (lit "new") [] false (Some (lit "m1")) in
  let s := sys_of r (mkWorld [doc_m1] 1000%Z 0) in
  exists s' : Sys,
    addOrUpdateMessage r (Some u1) env_offline s = (Normal tt, s')
    /\ prompt (comp s') = prompt r
    /\ editId (comp s') = None
    /\ loading (comp s') = false
    /\ forall env2 : Env,
         exists (s2 : Sys) (evs : list Event) (added : list Document),
           addOrUpdateMessage (comp s') (Some u1) env2 s' = (Normal tt, s2)
           /\ log s2 = log s' ++ evs
           /\ hd_error (store_writes evs)
              = Some (AddDoc (lit "user") (VString (prompt r)) (uid u1)
                             serverTimestamp serverTimestamp)
           /\ (forall i p t, ~ In (UpdateDoc i p t) (store_writes evs))
           /\ docs (world s2) = docs (world s') ++ added
           /\ (accepted env2 (world s')
                        (AddDoc (lit "user") (VString (prompt r)) (uid u1)
                                serverTimestamp serverTimestamp) = true ->
               exists rest,
                 added = mkDocument (auto_id env2 (writes (world s')))
                                    (lit "user") (VString (prompt r)) (uid u1)
                                    (clock (world s')) (clock (world s'))
                         :: rest).
Proof.
  cbv zeta.
  apply (retry_after_failed_edit_adds_a_record
           (mkState (lit "new") [] false (Some (lit "m1"))) u1 env_offline
           (sys_of (mkState (lit "new") [] false (Some (lit "m1")))
                   (mkWorld [doc_m1] 1000%Z 0))
           (lit "m1")).
  - reflexivity.
  - reflexivity.
  - reflexivity.
  - reflexivity.
  - intros status data c Hr. vm_compute in Hr. discriminate Hr.
Defined.

(** X7. Editing a message that came from a snapshot and submitting it
    unchanged: when the document's id is not empty and its content is not
    blank, [editMessage] puts the content in the draft and the id in the edit
    marker, and the first write of the following submission is an update of
    exactly that document with that content. *)
Theorem edit_then_submit_updates_the_snapshot_document :
  forall (env : Env) (d : QueryDocumentSnapshot) (s : Sys) (u : User) (env2 : Env),
    snap_id d <> [] ->
    truthy_string (trim (data_content d)) = true ->
    exists s1 : Sys,
      editMessage (message_of_doc env d) env s = (Normal tt, s1)
      /\ prompt (comp s1) = data_content d
      /\ editId (comp s1) = Some (snap_id d)
      /\ exists (s2 : Sys) (evs : list Event),
           addOrUpdateMessage (comp s1) (Some u) env2 s1 = (Normal tt, s2)
           /\ log s2 = log s1 ++ evs
           /\ hd_error (store_writes evs)
              = Some (UpdateDoc (snap_id d) (data_content d) serverTimestamp).
Proof.
  intros env d s u env2 Hid Hdraft.
  assert (Ht : truthy_string (snap_id d) = true).
  { destruct (snap_id d); [contradiction|reflexivity]. }
  unfold editMessage, id_or_null, message_of_doc, bind, setPrompt, setEditId, emit.
  cbn [id content comp world log prompt messages loading editId].
  rewrite Ht.
  eexists. split; [reflexivity|]. cbn [comp prompt editId].
  split; [reflexivity|]. split; [reflexivity|].
  match goal with
  | |- exists s2 evs, addOrUpdateMessage ?c _ _ ?s1 = _ /\ _ =>
      destruct (update_path_first_write c u env2 s1 (snap_id d))
        as (s2 & evs & E1 & E2 & E3);
      [exact Hdraft
      |unfold editing; cbn [editId]; now rewrite Ht
      |exists s2, evs; auto]
  end.
Qed.

Lemma edit_then_submit_updates_the_snapshot_document_witness :
  exists s1 : Sys,
    editMessage (message_of_doc env_ok private_doc) env_ok
      (sys_of initial_state empty_world) = (Normal tt, s1)
    /\ prompt (comp s1) = data_content private_doc
    /\ editId (comp s1) = Some (snap_id private_doc)
    /\ exists (s2 : Sys) (evs : list Event),
         addOrUpdateMessage (comp s1) (Some u1) env_ok s1 = (Normal tt, s2)
         /\ log s2 = log s1 ++ evs
         /\ hd_error (store_writes evs)
            = Some (UpdateDoc (snap_id private_doc) (data_content private_doc)
                              serverTimestamp).
Proof.
  apply (edit_then_submit_updates_the_snapshot_document
           env_ok private_doc (sys_of initial_state empty_world) u1 env_ok).
  - vm_compute. discriminate.
  - reflexivity.
Defined.

(** *** What the endpoint receives *)

Lemma slice_last_map :
  forall (A B : Type) (f : A -> B) (n : nat) (a : list A),
    slice_last n (List.map f a) = List.map f (slice_last n a).
Proof.
  intros A B f n a. unfold slice_last.
  now rewrite length_map, skipn_map.
Qed.

Lemma json_of_snapshot_message :
  forall env d, json_of_message (message_of_doc env d) = json_of_doc env d.
Proof.
  intros env d. unfold json_of_message, message_of_doc, json_of_doc. cbn.
  destruct (data_createdAt d), (data_updatedAt d); reflexivity.
Qed.

(** X8. For a message list that came from a snapshot, the context sent to
    the endpoint holds, for each of the last [min 5 n] documents in order, an
    object with the members [id], [role], [content], [createdAt] and
    [updatedAt], the two times as display strings or [null]; with five
    documents or fewer the whole history is sent. *)
Theorem request_carries_last_snapshot_documents :
  forall (env : Env) (p : jsstring) (ds : list QueryDocumentSnapshot),
    exists items : list value,
      body (chat_request p (newMessages env ds))
      = VObject [(lit "prompt", VString p); (lit "messages", VArray items)]
      /\ items = List.map (json_of_doc env) (slice_last 5 ds)
      /\ List.length items = Nat.min 5 (List.length ds)
      /\ (List.length ds <= 5 -> items = List.map (json_of_doc env) ds).
Proof.
  intros env p ds. eexists. split; [reflexivity|].
  assert (E : List.map json_of_message (slice_last 5 (newMessages env ds))
              = List.map (json_of_doc env) (slice_last 5 ds)).
  { unfold newMessages. rewrite slice_last_map, map_map.
    apply map_ext. apply json_of_snapshot_message. }
  split; [exact E|]. rewrite E. split.
  - rewrite length_map. unfold slice_last. rewrite length_skipn. lia.
  - intros Hle. unfold slice_last.
    replace (List.length ds - 5) with 0 by lia. reflexivity.
Qed.

Lemma request_carries_last_snapshot_documents_witness :
  exists items : list value,
    body (chat_request (lit "Hello") (newMessages env_ok [private_doc]))
    = VObject [(lit "prompt", VString (lit "Hello"));
               (lit "messages", VArray items)]
    /\ items = List.map (json_of_doc env_ok) (slice_last 5 [private_doc])
    /\ List.length items = Nat.min 5 (List.length [private_doc])
    /\ (List.length [private_doc] <= 5 ->
        items = List.map (json_of_doc env_ok) [private_doc]).
Proof.
  apply (request_carries_last_snapshot_documents env_ok (lit "Hello")
           [private_doc]).
Defined.

(** *** What the handler does to the collection *)

Lemma record_key_update :
  forall i p t d, record_key (apply_update i p t d) = record_key d.
Proof.
  intros i p t d. unfold record_key, apply_update.
  destruct (str_eqb (doc_id d) i); reflexivity.
Qed.

Lemma map_record_key_update :
  forall i p t ds,
    List.map record_key (List.map (apply_update i p t) ds)
    = List.map record_key ds.
Proof.
  intros i p t ds. rewrite map_map. apply map_ext. apply record_key_update.
Qed.

(** X9. The handler never deletes a record and never changes the id, role,
    owner or creation time of one: after any invocation the collection
    holds the records it held, in the same order and with the same identity,
    followed by at most two new ones. *)
Theorem handler_keeps_records :
  forall (r : ComponentState) (user : option User) (env : Env) (s : Sys),
    exists added : list Document,
      List.map record_key (docs (world (snd (addOrUpdateMessage r user env s))))
      = List.map record_key (docs (world s)) ++ List.map record_key added
      /\ List.length added <= 2.
Proof.
  intros r user env s.
  destruct user as [u|].
  2:{ exists []. cbn. rewrite app_nil_r. auto. }
  destruct (truthy_string (trim (prompt r))) eqn:H.
  2:{ exists []. unfold addOrUpdateMessage. rewrite H. cbn.
      rewrite app_nil_r. auto. }
  unfold_async. rewrite H. cbn [negb].
  split_env.
  all: repeat match goal with
       | E : commit _ (AddDoc _ _ _ _ _) _ = Some _ |- _ =>
           cbn in E; injection E as <-
       | E : commit _ (UpdateDoc _ _ _) _ = Some _ |- _ =>
           unfold commit in E;
           match type of E with
           | context [has_doc ?i ?l] => destruct (has_doc i l)
           end; [injection E as <-|discriminate E]
       end.
  all: cbn [world docs].
  all: rewrite ?map_app, ?map_record_key_update, <- ?app_assoc.
  all: try (exists []; cbn; rewrite ?app_nil_r; split; [reflexivity|lia]).
  all: try (eexists [_]; cbn [List.map List.length]; split; [reflexivity|lia]).
  all: try (eexists [_; _]; cbn [List.map List.length app]; split; [reflexivity|lia]).
Qed.

(** X10. A submission that is not an edit leaves the history of every other
    user as it was, on every path. *)
Theorem create_leaves_other_histories :
  forall (r : ComponentState) (u : User) (env : Env) (s : Sys) (other : jsstring),
    editing r = None ->
    str_eqb (uid u) other = false ->
    query_messages other (world (snd (addOrUpdateMessage r (Some u) env s)))
    = query_messages other (world s).
Proof.
  intros r u env s other Hed Hother.
  destruct (truthy_string (trim (prompt r))) eqn:H.
  2:{ unfold addOrUpdateMessage. rewrite H. reflexivity. }
  unfold_async. rewrite H, Hed. cbn [negb].
  split_env.
  all: repeat match goal with
       | E : commit _ (AddDoc _ _ _ _ _) _ = Some _ |- _ =>
           cbn in E; injection E as <-
       end.
  all: unfold query_messages; cbn [world docs].
  all: rewrite ?filter_app; cbn [filter doc_userId]; rewrite ?Hother.
  all: rewrite ?app_nil_r; reflexivity.
Qed.

Lemma create_leaves_other_histories_witness :
  let r := mkState (lit "Hello") [] false None in
  let s := sys_of r (mkWorld [doc_m1] 1000%Z 0) in
  query_messages (lit "u1") (world (snd (addOrUpdateMessage r (Some u2) env_ok s)))
  = query_messages (lit "u1") (world s).
Proof.
  cbv zeta.
  apply (create_leaves_other_histories
           (mkState (lit "Hello") [] false None) u2 env_ok
           (sys_of (mkState (lit "Hello") [] false None)
                   (mkWorld [doc_m1] 1000%Z 0))
           (lit "u1")).
  - reflexivity.
  - reflexivity.
Defined.

(** X11. A successful submission that is not an edit, in a store whose
    records are stamped before the server clock, extends the user's history
    at its tail by the [user] record holding the draft and then by the
    [assistant] record, stamped in that order. *)
Theorem create_appends_question_then_reply :
  forall (r : ComponentState) (u : User) (env : Env) (s : Sys),
    draft_ok r = true ->
    editing r = None ->
    try_block_completes r u env s ->
    Forall (fun d => (doc_createdAt d < clock (world s))%Z) (docs (world s)) ->
    exists (s' : Sys) (A : Document),
      addOrUpdateMessage r (Some u) env s = (Normal tt, s')
      /\ query_messages (uid u) (world s')
         = query_messages (uid u) (world s)
           ++ [user_record (auto_id env (writes (world s))) (prompt r) u
                           (clock (world s));
               A]
      /\ doc_role A = lit "assistant"
      /\ doc_userId A = uid u
      /\ (clock (world s) < doc_createdAt A)%Z.
Proof.
  intros r u env s H Hed Hok Hstamps. unfold draft_ok in H.
  unfold try_block_completes in Hok.
  unfold_async. rewrite H. cbn [negb].
  revert Hok. rewrite Hed.
  split_env.
  all: cbn [fst]; intros Hok; try discriminate Hok.
  all: repeat match goal with
       | E : commit _ (AddDoc _ _ _ _ _) _ = Some _ |- _ =>
           cbn in E; injection E as <-
       end.
  do 2 eexists. split; [reflexivity|]. cbn [world docs].
  assert (E : str_eqb (uid u) (uid u) = true) by now apply str_eqb_eq.
  unfold query_messages. cbn [docs clock resolve].
  rewrite !filter_app. cbn [filter doc_userId]. rewrite E.
  split.
  { rewrite orderBy_latest_last.
    - rewrite orderBy_latest_last.
      + rewrite <- app_assoc. reflexivity.
      + apply Forall_forall. intros d Hd. cbn [doc_createdAt].
        apply filter_In in Hd as [Hd _].
        rewrite Forall_forall in Hstamps. now apply Hstamps.
    - apply Forall_forall. intros d Hd. cbn [doc_createdAt].
      apply in_app_iff in Hd as [Hd | [<- | []]].
      + apply filter_In in Hd as [Hd _].
        rewrite Forall_forall in Hstamps. specialize (Hstamps d Hd). lia.
      + cbn. lia. }
  cbn. repeat split. lia.
Qed.

Lemma create_appends_question_then_reply_witness :
  let r := mkState (lit "Hello") [] false None in
  let s := sys_of r (mkWorld [doc_m1] 1000%Z 0) in
  exists (s' : Sys) (A : Document),
    addOrUpdateMessage r (Some u1) env_ok s = (Normal tt, s')
    /\ query_messages (uid u1) (world s')
       = query_messages (uid u1) (world s)
         ++ [user_record (auto_id env_ok (writes (world s))) (prompt r) u1
                         (clock (world s));
             A]
    /\ doc_role A = lit "assistant"
    /\ doc_userId A = uid u1
    /\ (clock (world s) < doc_createdAt A)%Z.
Proof.
  cbv zeta.
  apply (create_appends_question_then_reply
           (mkState (lit "Hello") [] false None) u1 env_ok
           (sys_of (mkState (lit "Hello") [] false None)
                   (mkWorld [doc_m1] 1000%Z 0))).
  - reflexivity.
  - reflexivity.
  - reflexivity.
  - repeat constructor.
Defined.

(** *** Subscriptions over the life of the view *)

Lemma opened_from_any_runtime :
  forall env evs rt,
    kept_cleanup rt = None ->
    List.map listens_for (listeners (fold_left (step env effect) evs rt))
    = List.map listens_for (listeners rt) ++ opened (mounted rt) evs.
Proof.
  intros env evs. induction evs as [|ev evs IH]; intros rt Hk.
  - cbn. now rewrite app_nil_r.
  - cbn [fold_left]. rewrite IH by now apply step_keeps_no_cleanup.
    destruct ev as [[u|]|[u|]| |h ds]; cbn.
    + rewrite map_app, <- app_assoc. reflexivity.
    + reflexivity.
    + destruct (mounted rt) eqn:Hm; cbn; rewrite ?Hk; cbn.
      * rewrite map_app, <- app_assoc. reflexivity.
      * rewrite Hm. reflexivity.
    + destruct (mounted rt) eqn:Hm; cbn; rewrite ?Hk; cbn; rewrite ?Hm;
        reflexivity.
    + rewrite Hk. reflexivity.
    + destruct (registered h (listeners rt)); reflexivity.
Qed.

(** X12. Over any sequence of mounts, user changes, unmounts and snapshots,
    the registrations the store serves are exactly the ones opened so far:
    one per mount or user change that found a user, in order, none for a
    mount or change without a user, and none removed by a user change or an
    unmount. *)
Theorem registrations_are_all_that_were_opened :
  forall (env : Env) (evs : list LifeEvent),
    List.map listens_for (listeners (run env effect evs)) = opened false evs.
Proof.
  intros env evs. unfold run.
  now rewrite opened_from_any_runtime.
Qed.

(** X13. A snapshot never touches the draft, the flag, the edit marker or
    the registrations. Delivered to a registered listener of a mounted view
    it replaces the whole message list by one message per document;
    delivered to a handle that is not registered it changes nothing. *)
Theorem snapshot_replaces_list_only :
  forall (env : Env) (rt : Runtime) (h : nat)
         (ds : list QueryDocumentSnapshot),
    let rt' := step env effect rt (Snapshot h ds) in
    prompt (view rt') = prompt (view rt)
    /\ loading (view rt') = loading (view rt)
    /\ editId (view rt') = editId (view rt)
    /\ listeners rt' = listeners rt
    /\ (registered h (listeners rt) = true -> mounted rt = true ->
        messages (view rt') = newMessages env ds
        /\ List.length (messages (view rt')) = List.length ds)
    /\ (registered h (listeners rt) = false -> rt' = rt).
Proof.
  intros env rt h ds. cbn.
  destruct (registered h (listeners rt)) eqn:Hr; cbn.
  - destruct (mounted rt) eqn:Hm; cbn.
    + do 4 (split; [reflexivity|]). split.
      * intros _ _. split; [reflexivity|]. unfold newMessages. apply length_map.
      * discriminate.
    + do 4 (split; [reflexivity|]). split; discriminate.
  - do 4 (split; [reflexivity|]). split; [discriminate|reflexivity].
Qed.

Lemma snapshot_replaces_list_only_witness :
  let rt := run env_ok effect [Mount (Some u1)] in
  let rt' := step env_ok effect rt (Snapshot 0 [private_doc]) in
  prompt (view rt') = prompt (view rt)
  /\ loading (view rt') = loading (view rt)
  /\ editId (view rt') = editId (view rt)
  /\ listeners rt' = listeners rt
  /\ (registered 0 (listeners rt) = true -> mounted rt = true ->
      messages (view rt') = newMessages env_ok [private_doc]
      /\ List.length (messages (view rt')) = List.length [private_doc])
  /\ (registered 0 (listeners rt) = false -> rt' = rt).
Proof.
  cbv zeta.
  apply (snapshot_replaces_list_only env_ok (run env_ok effect [Mount (Some u1)])
           0 [private_doc]).
Defined.

(** *** The rendered view *)

Lemma map_indexed_length :
  forall (A B : Type) (f : A -> nat -> B) (a : list A) (k : nat),
    List.length (map_indexed f k a) = List.length a.
Proof.
  intros A B f a. induction a as [|x a IH]; intros k; [reflexivity|].
  cbn. now rewrite IH.
Qed.

Lemma map_indexed_nth_error :
  forall (A B : Type) (f : A -> nat -> B) (a : list A) (k i : nat) (x : A),
    nth_error a i = Some x ->
    nth_error (map_indexed f k a) i = Some (f x (k + i)).
Proof.
  intros A B f a. induction a as [|y a IH]; intros k i x Hn.
  - destruct i; discriminate Hn.
  - destruct i as [|i]; cbn in *.
    + injection Hn as ->. now rewrite Nat.add_0_r.
    + rewrite (IH (S k) i x Hn). f_equal. f_equal. lia.
Qed.

Lemma map_indexed_in :
  forall (A B : Type) (f : A -> nat -> B) (a : list A) (k : nat) (y : B),
    In y (map_indexed f k a) -> exists x i, In x a /\ y = f x i.
Proof.
  intros A B f a. induction a as [|x a IH]; intros k y Hin; [contradiction|].
  cbn in Hin. destruct Hin as [<- | Hin].
  - exists x, k. split; [now left|reflexivity].
  - destruct (IH _ _ Hin) as (x' & i & Hx & ->).
    exists x', i. split; [now right|reflexivity].
Qed.

(** X14. The history pane shows one entry per message, in the order of the
    list and keyed by position, with the message's content; the speaker is
    [You] for role [user] and [GPT] for any other role. An Edit button
    appears only on entries of role [user], and what it hands to
    [editMessage] is the message of that entry. *)
Theorem history_pane_rows :
  forall c : ComponentState,
    List.length (rows (render c)) = List.length (messages c)
    /\ (forall i m,
          nth_error (messages c) i = Some m ->
          nth_error (rows (render c)) i
          = Some (mkRow i (if str_eqb (role m) (lit "user")
                           then lit "You" else lit "GPT")
                        (content m)
                        (if str_eqb (role m) (lit "user")
                         then Some m else None)))
    /\ (forall row m,
          In row (rows (render c)) ->
          edit_button row = Some m ->
          In m (messages c) /\ role m = lit "user" /\ text row = content m).
Proof.
  intros c. unfold render. cbn [rows]. split; [|split].
  - apply map_indexed_length.
  - intros i m Hn.
    now rewrite (map_indexed_nth_error _ _ render_row (messages c) 0 i m Hn).
  - intros row m Hin Hb.
    apply map_indexed_in in Hin as (x & i & Hx & ->).
    unfold render_row, is_user in *. cbn [edit_button text] in *.
    destruct (str_eqb (role x) (lit "user")) eqn:E; [|discriminate Hb].
    injection Hb as <-. apply str_eqb_eq in E. auto.
Qed.

Lemma history_pane_rows_witness :
  let c := mkState [] (newMessages env_ok [private_doc]) false None in
  List.length (rows (render c)) = List.length (messages c)
  /\ (forall i m,
        nth_error (messages c) i = Some m ->
        nth_error (rows (render c)) i
        = Some (mkRow i (if str_eqb (role m) (lit "user")
                         then lit "You" else lit "GPT")
                      (content m)
                      (if str_eqb (role m) (lit "user")
                       then Some m else None)))
  /\ (forall row m,
        In row (rows (render c)) ->
        edit_button row = Some m ->
        In m (messages c) /\ role m = lit "user" /\ text row = content m).
Proof.
  cbv zeta.
  apply (history_pane_rows
           (mkState [] (newMessages env_ok [private_doc]) false None)).
Defined.

(** X15. Clicking Edit on an entry changes what is rendered in two places
    only: the text area shows the content of that message, and the button,
    when not loading, reads [Update Message] if the message has a non-empty
    id and [Submit Message] otherwise; the history pane and the disabled
    state of the button are as before. *)
Theorem edit_click_rerenders_draft_and_label :
  forall (message : ChatMessage) (env : Env) (s : Sys),
    let c' := comp (snd (editMessage message env s)) in
    textarea_value (render c') = content message
    /\ rows (render c') = rows (render (comp s))
    /\ button_disabled (render c') = button_disabled (render (comp s))
    /\ (loading (comp s) = false ->
        button_label (render c')
        = match id message with
          | Some (_ :: _) => lit "Update Message"
          | _ => lit "Submit Message"
          end).
Proof.
  intros message env s. cbn.
  do 3 (split; [reflexivity|]).
  intros Hl. unfold label_of, editing, id_or_null. cbn. rewrite Hl.
  destruct (id message) as [[|x i]|]; reflexivity.
Qed.

Lemma edit_click_rerenders_draft_and_label_witness :
  let message := message_of_doc env_ok private_doc in
  let s := sys_of initial_state empty_world in
  let c' := comp (snd (editMessage message env_ok s)) in
  textarea_value (render c') = content message
  /\ rows (render c') = rows (render (comp s))
  /\ button_disabled (render c') = button_disabled (render (comp s))
  /\ (loading (comp s) = false ->
      button_label (render c')
      = match id message with
        | Some (_ :: _) => lit "Update Message"
        | _ => lit "Submit Message"
        end).
Proof.
  cbv zeta.
  apply (edit_click_rerenders_draft_and_label
           (message_of_doc env_ok private_doc) env_ok
           (sys_of initial_state empty_world)).
Defined.

(** X16. After a submission that ran to its end from the current render,
    edit or not, the view shows the same history, an empty text area and an
    enabled button that reads [Submit Message]. *)
Theorem view_after_successful_submission :
  forall (r : ComponentState) (u : User) (env : Env) (s : Sys),
    draft_ok r = true ->
    comp s = r ->
    try_block_completes r u env s ->
    render (comp (snd (addOrUpdateMessage r (Some u) env s)))
    = mkView (lit "Chat with GPT") (rows (render r)) []
             (lit "Enter your prompt here...") (lit "Submit Message") false.
Proof.
  intros r u env s H Hlive Hok. unfold draft_ok in H.
  unfold try_block_completes in Hok.
  unfold_async. rewrite H. cbn [negb].
  revert Hok.
  split_env.
  all: cbn [fst]; intros Hok; try discriminate Hok.
  all: unfold render, label_of, editing; cbn.
  all: rewrite Hlive; try reflexivity.
  all: unfold editing in *.
  all: destruct (editId r) as [e|]; try reflexivity.
  all: destruct (truthy_string e); try reflexivity; discriminate.
Qed.

Lemma view_after_successful_submission_witness :
  let r := mkState (lit "new") (newMessages env_ok [private_doc]) false
                   (Some (lit "m1")) in
  let s := sys_of r (mkWorld [doc_m1] 1000%Z 0) in
  render (comp (snd (addOrUpdateMessage r (Some u1) env_ok s)))
  = mkView (lit "Chat with GPT") (rows (render r)) []
           (lit "Enter your prompt here...") (lit "Submit Message") false.
Proof.
  cbv zeta.
  apply (view_after_successful_submission
           (mkState (lit "new") (newMessages env_ok [private_doc]) false
                    (Some (lit "m1"))) u1 env_ok
           (sys_of (mkState (lit "new") (newMessages env_ok [private_doc]) false
                            (Some (lit "m1")))
                   (mkWorld [doc_m1] 1000%Z 0))).
  - reflexivity.
  - reflexivity.
  - reflexivity.
Defined.

(** *** The response status *)

(** X17. The handler never looks at the status of the response: with the
    same body, a response of any status leads to the same writes, the same
    state and the same log (an error status with a well-formed body is
    treated as a success). *)
Theorem handler_ignores_response_status :
  forall (st : Z) (r : ComponentState) (user : option User) (env : Env) (s : Sys),
    addOrUpdateMessage r user (with_status st env) s
    = addOrUpdateMessage r user env s.
Proof.
  intros st r user env s.
  destruct user as [u|]; [|reflexivity].
  destruct (truthy_string (trim (prompt r))) eqn:H.
  2:{ unfold addOrUpdateMessage. rewrite H. reflexivity. }
  unfold_async. rewrite H. cbn [negb].
  unfold with_status.
  repeat first
    [ progress unfold ret, lift
    | progress cbn [fst snd comp world log loading prompt editId messages
                    docs clock writes rejects auto_id respond]
    | split_step ].
  all: reflexivity.
Qed.

(** *** The unsubscribing function *)

Lemma run_cleanup_keeps_older :
  forall h ls,
    Forall (fun l => handle l < h) ls ->
    filter (fun l => negb (Nat.eqb (handle l) h)) ls = ls.
Proof.
  intros h ls Hall. induction Hall as [|l ls Hl Hall IH]; [reflexivity|].
  cbn. assert (E : Nat.eqb (handle l) h = false) by (apply Nat.eqb_neq; lia).
  rewrite E. cbn. now rewrite IH.
Qed.

(** X18. The function [fetchMessages] resolves to does undo the
    subscription it made: with a user present, and handles handed out in
    increasing order, running it right after the subscription leaves the
    registrations exactly as they were before; without a user
    [fetchMessages] resolves to nothing and registers nothing. *)
Theorem unsubscribe_undoes_subscribe :
  forall (user : option User) (rt : Runtime),
    Forall (fun l => handle l < next_handle rt) (listeners rt) ->
    let (resolved, rt') := fetchMessages user rt in
    run_cleanup resolved (listeners rt') = listeners rt
    /\ match user with
       | Some u =>
           resolved = Some (Unsubscribe (next_handle rt))
           /\ listeners rt'
              = listeners rt ++ [mkListener (next_handle rt) (uid u)]
       | None => resolved = None /\ rt' = rt
       end.
Proof.
  intros user rt Hall. destruct user as [u|]; cbn.
  - split; [|split; reflexivity].
    rewrite filter_app. cbn. rewrite Nat.eqb_refl. cbn.
    rewrite app_nil_r. now apply run_cleanup_keeps_older.
  - auto.
Qed.

Lemma unsubscribe_undoes_subscribe_witness :
  let rt := run env_ok effect [Mount (Some u1)] in
  let (resolved, rt') := fetchMessages (Some u2) rt in
  run_cleanup resolved (listeners rt') = listeners rt
  /\ (resolved = Some (Unsubscribe (next_handle rt))
      /\ listeners rt'
         = listeners rt ++ [mkListener (next_handle rt) (uid u2)]).
Proof.
  cbv zeta.
  apply (unsubscribe_undoes_subscribe (Some u2)
           (run env_ok effect [Mount (Some u1)])).
  repeat constructor.
Defined.

End ChatSpec.
